(** * packit-service: dist-git checkers and the Testing Farm job helper

    A shallow embedding of
      - packit_service/worker/checker/distgit.py
      - packit_service/worker/testing_farm.py
    Python values are a small inductive type, the objects the code talks to
    (logger, issue repository, commit statuses, database, HTTP session) are
    fields of an explicit state, and a raised exception is a result of its
    own kind that carries the state reached. *)

From Stdlib Require Import String Ascii List ZArith Bool Lia.
From Stdlib Require Import DecimalString.
Import ListNotations.
Open Scope string_scope.
Set Warnings "-register-all".

(** ** Python values and strings *)

Module Py.

(** The values that travel through JSON bodies, event dictionaries and
    task results.  A dict keeps its insertion order. *)
Inductive value : Type :=
| VNone : value
| VBool : bool -> value
| VInt : Z -> value
| VStr : string -> value
| VList : list value -> value
| VDict : list (string * value) -> value.

Definition dict := list (string * value).

(** [bool(v)] *)
Definition truthy (v : value) : bool :=
  match v with
  | VNone => false
  | VBool b => b
  | VInt z => negb (Z.eqb z 0)
  | VStr s => negb (String.eqb s EmptyString)
  | VList l => match l with [] => false | _ => true end
  | VDict d => match d with [] => false | _ => true end
  end.

(** [bool(s)] for [s : Optional[str]] *)
Definition truthy_str (s : option string) : bool :=
  match s with
  | None => false
  | Some s => negb (String.eqb s EmptyString)
  end.

(** [d.get(k)], [None] when the key is absent *)
Fixpoint dict_get (d : dict) (k : string) : option value :=
  match d with
  | [] => None
  | (k', v) :: d' => if String.eqb k' k then Some v else dict_get d' k
  end.

Definition dict_keys (d : dict) : list string := map fst d.

(** [k in d] *)
Definition dict_mem (d : dict) (k : string) : bool :=
  existsb (String.eqb k) (dict_keys d).

(** [d[k] = v]: an existing key keeps its place, a new one goes last *)
Fixpoint dict_set (d : dict) (k : string) (v : value) : dict :=
  match d with
  | [] => [(k, v)]
  | (k', v') :: d' =>
      if String.eqb k' k then (k', v) :: d' else (k', v') :: dict_set d' k v
  end.

(** [d.update(other)] mutates [d] and returns [None]: the pair is the
    receiver after the call and the value of the call expression. *)
Definition dict_update (d other : dict) : dict * value :=
  (fold_left (fun acc kv => dict_set acc (fst kv) (snd kv)) other d, VNone).

(** [x in l] for a list (or set) of strings *)
Definition str_in (x : string) (l : list string) : bool :=
  existsb (String.eqb x) l.

(** [x in l] where [x] may be [None] *)
Definition opt_str_in (x : option string) (l : list string) : bool :=
  match x with
  | Some a => str_in a l
  | None => false
  end.

(** [s.startswith(p)] *)
Fixpoint startswith (s p : string) : bool :=
  match p, s with
  | EmptyString, _ => true
  | String c p', String d s' => Ascii.eqb c d && startswith s' p'
  | String _ _, EmptyString => false
  end.

(** [s.endswith(suffix)] *)
Definition endswith (s suffix : string) : bool :=
  let n := String.length s in
  let m := String.length suffix in
  Nat.leb m n && String.eqb (substring (n - m) m s) suffix.

(** [s] is some text followed by [suffix]. *)
Definition ends_with (s suffix : string) : Prop :=
  exists p, s = p ++ suffix.

(** [sub in s] *)
Fixpoint str_contains (s sub : string) : bool :=
  startswith s sub ||
  match s with
  | EmptyString => false
  | String _ s' => str_contains s' sub
  end.

(** [str(z)] for an int *)
Definition str_of_Z (z : Z) : string := NilZero.string_of_int (Z.to_int z).

(** [s.rsplit(sep, 1)] for a one-character separator: [None] when the
    separator does not occur (Python then returns the one-element list
    [[s]]), else the parts before and after its last occurrence. *)
Fixpoint rsplit1 (sep : ascii) (s : string) : option (string * string) :=
  match s with
  | EmptyString => None
  | String c s' =>
      match rsplit1 sep s' with
      | Some (a, b) => Some (String c a, b)
      | None => if Ascii.eqb c sep then Some (EmptyString, s') else None
      end
  end.

Definition is_upper (c : ascii) : bool :=
  let n := nat_of_ascii c in Nat.leb 65 n && Nat.leb n 90.
Definition is_lower (c : ascii) : bool :=
  let n := nat_of_ascii c in Nat.leb 97 n && Nat.leb n 122.
Definition to_upper (c : ascii) : ascii :=
  if is_lower c then ascii_of_nat (nat_of_ascii c - 32) else c.
Definition to_lower (c : ascii) : ascii :=
  if is_upper c then ascii_of_nat (nat_of_ascii c + 32) else c.

(** [s.title()] on ASCII text: a letter that follows a letter is lowered,
    any other letter is raised; [prev] tells whether the previous
    character was a letter. *)
Fixpoint title_from (prev : bool) (s : string) : string :=
  match s with
  | EmptyString => EmptyString
  | String c s' =>
      let cased := is_upper c || is_lower c in
      String (if prev then to_lower c else to_upper c) (title_from cased s')
  end.

Definition title (s : string) : string := title_from false s.

(** What Python itself supplies and the sources only call: [repr] of a
    value and of a set of strings (used in formatted messages), [int] of
    a string ([None] when it raises [ValueError]), and [re.match], which
    tells whether the pattern matches at the beginning of the string
    ([None] when the pattern does not compile and it raises
    [re.error]). *)
Class Runtime : Type := {
  py_repr : value -> string;
  py_repr_set : list string -> string;
  py_int : string -> option Z;
  re_match : string -> string -> option bool
}.

(** [str(v)], as an f-string formats a value *)
Definition py_str `{Runtime} (v : value) : string :=
  match v with
  | VNone => "None"
  | VBool true => "True"
  | VBool false => "False"
  | VInt z => str_of_Z z
  | VStr s => s
  | VList _ | VDict _ => py_repr v
  end.

(** [str(s)] for [s : Optional[str]] *)
Definition str_of_opt (s : option string) : string :=
  match s with
  | Some s => s
  | None => "None"
  end.

(** [str(z)] for [z : Optional[int]] *)
Definition str_of_optZ (z : option Z) : string :=
  match z with
  | Some z => str_of_Z z
  | None => "None"
  end.

(** [v == s] for a string literal [s] *)
Definition value_eq_str (v : value) (s : string) : bool :=
  match v with
  | VStr a => String.eqb a s
  | _ => false
  end.

(** [v in l] for a list of strings [l] *)
Definition value_in_strs (v : value) (l : list string) : bool :=
  existsb (value_eq_str v) l.

(** [x or {}] for [x : Optional[dict]] *)
Definition or_empty_dict (x : option dict) : dict :=
  match x with
  | Some d => if truthy (VDict d) then d else []
  | None => []
  end.

(** [d.get(k)] as a value *)
Definition dict_get_value (d : dict) (k : string) : value :=
  match dict_get d k with
  | Some v => v
  | None => VNone
  end.

(** *** Exceptions and the state-and-exception monad *)

Inductive exn : Type :=
| KeyError (key : string)
| TypeError
| ValueError
| ConnectionError              (* requests.exceptions.ConnectionError *)
| Exception (msg : string)     (* a plain [Exception] *)
| ReError.                     (* re.error *)

Inductive result (A : Type) : Type :=
| Ok (a : A)
| Raise (e : exn).
Arguments Ok {A} a.
Arguments Raise {A} e.

(** A computation over a state [W]: it returns or raises, and in both
    cases leaves a state behind. *)
Definition M (W A : Type) : Type := W -> result A * W.

Definition ret {W A} (a : A) : M W A := fun w => (Ok a, w).

Definition raise {W A} (e : exn) : M W A := fun w => (Raise e, w).

Definition bind {W A B} (m : M W A) (f : A -> M W B) : M W B :=
  fun w =>
    match m w with
    | (Ok a, w') => f a w'
    | (Raise e, w') => (Raise e, w')
    end.

(** [try: m except: handler]; [handler e] is [None] for an exception the
    clause does not catch. *)
Definition try_except {W A} (m : M W A) (handler : exn -> option (M W A))
  : M W A :=
  fun w =>
    match m w with
    | (Ok a, w') => (Ok a, w')
    | (Raise e, w') =>
        match handler e with
        | Some h => h w'
        | None => (Raise e, w')
        end
    end.

(** [for x in xs: acc = body(acc, x)] *)
Fixpoint for_each {W A X} (xs : list X) (acc : A) (body : A -> X -> M W A)
  : M W A :=
  match xs with
  | [] => ret acc
  | x :: xs' => bind (body acc x) (fun acc' => for_each xs' acc' body)
  end.

(** [[f(x) for x in xs]] *)
Fixpoint map_M {W X Y} (f : X -> M W Y) (xs : list X) : M W (list Y) :=
  match xs with
  | [] => ret []
  | x :: xs' =>
      bind (f x) (fun y => bind (map_M f xs') (fun ys => ret (y :: ys)))
  end.

(** [d[k]], raising [KeyError] *)
Definition getitem {W} (d : dict) (k : string) : M W value :=
  match dict_get d k with
  | Some v => ret v
  | None => raise (KeyError k)
  end.

(** [v[k]] for a string key [k] *)
Definition subscript {W} (v : value) (k : string) : M W value :=
  match v with
  | VDict d => getitem d k
  | _ => raise TypeError
  end.

Fixpoint chars (s : string) : list string :=
  match s with
  | EmptyString => []
  | String c s' => String c EmptyString :: chars s'
  end.

(** The items [for c in v] goes through. *)
Definition py_iter {W} (v : value) : M W (list value) :=
  match v with
  | VList l => ret l
  | VDict d => ret (map VStr (dict_keys d))
  | VStr s => ret (map VStr (chars s))
  | _ => raise TypeError
  end.

(** [k in v] for a string [k] *)
Definition contains {W} (v : value) (k : string) : M W bool :=
  match v with
  | VDict d => ret (dict_mem d k)
  | VList l => ret (existsb (fun x => value_eq_str x k) l)
  | VStr s => ret (str_contains s k)
  | _ => raise TypeError
  end.

(** [re.match(pattern, s)] taken as a truth value; it raises [re.error]
    when the pattern is not a regular expression. *)
Definition re_match_call `{Runtime} {W} (pattern s : string) : M W bool :=
  match re_match pattern s with
  | Some b => ret b
  | None => raise ReError
  end.

End Py.

Declare Scope py_scope.
Delimit Scope py_scope with py.
Notation "x <- m ;; k" := (Py.bind m (fun x => k))
  (at level 61, m at next level, right associativity) : py_scope.
Notation "m ;; k" := (Py.bind m (fun _ => k))
  (at level 61, right associativity) : py_scope.
Open Scope py_scope.

(** ** packit_service/worker/checker/distgit.py *)

Module Distgit.
Import Py.

(** What the module imports from packit and from the service's constants:
    [get_branches], called with the branch names, a default and
    [with_aliases], expands branch aliases into a set of branch names;
    [MSG_GET_IN_TOUCH] is a fixed text. *)
Class Imports : Type := {
  get_branches : list string -> string -> bool -> list string;
  MSG_GET_IN_TOUCH : string
}.

(** *** The state the checkers act on *)

Inductive level : Type := DEBUG | INFO | ERROR.

(** One call of [report_in_issue_repository]. *)
Record IssueReport : Type := {
  issue_repository_of : option string;
  title : string;
  message : string;
  comment_to_existing : string
}.

Record World : Type := {
  log : list (level * string);
  issue_reports : list IssueReport
}.

Definition logger (l : level) (msg : string) : M World unit :=
  fun w => (Ok tt, {| log := log w ++ [(l, msg)];
                      issue_reports := issue_reports w |}).

(** Modelled from the spec: [report_in_issue_repository] belongs to the
    service's reporting module, which is not among the sources; it sends
    (title, message) to the issue repository, as a new issue or as a
    comment to the open issue of that title. *)
Definition report_in_issue_repository (r : IssueReport) : M World unit :=
  fun w => (Ok tt, {| log := log w;
                      issue_reports := (issue_reports w ++ [r])%list |}).

(** *** The objects a checker reads *)

Inductive PRStatus : Type := PR_open | PR_closed | PR_merged | PR_all.

Definition str_of_PRStatus (s : PRStatus) : string :=
  match s with
  | PR_open => "PRStatus.open"
  | PR_closed => "PRStatus.closed"
  | PR_merged => "PRStatus.merged"
  | PR_all => "PRStatus.all"
  end.

Record PullRequest : Type := {
  id : Z;
  status : PRStatus;
  author : string
}.

Record EventData : Type := {
  event_type : string;
  actor : option string;
  git_ref : option string;
  pr_id : option Z;
  project_url : option string;
  identifier : option string;
  tag_name : option string;
  event_dict : dict
}.

Record JobConfig : Type := {
  dist_git_branches : list string;
  allowed_pr_authors : list string;
  allowed_committers : list string;
  issue_repository : option string;
  upstream_tag_include : option string;
  upstream_tag_exclude : option string
}.

Record PackageConfig : Type := {
  upstream_project_url : option string
}.

(** A checker with what its mixins give it: the pull request of the
    pushed commit ([None] when it cannot be found), the forge's diff
    retrieval [get_pr_files_diff pr_id retries wait_seconds] and the
    packager lookup. *)
Record Checker : Type := {
  data : EventData;
  job_config : JobConfig;
  package_config : PackageConfig;
  pull_request : option PullRequest;
  get_pr_files_diff : Z -> nat -> nat -> option dict;
  is_packager : option string -> bool
}.

(** Modelled from the spec: [get_pr_author] belongs to
    GetPagurePullRequestMixin, which is not among the sources; it is the
    author of the originating pull request, [None] without one. *)
Definition get_pr_author (c : Checker) : option string :=
  option_map author (pull_request c).

(** The class names the event types are compared with. *)
Definition PushPagureEvent__name__ : string := "PushPagureEvent".
Definition PullRequestCommentPagureEvent__name__ : string :=
  "PullRequestCommentPagureEvent".
Definition NewHotnessUpdateEvent__name__ : string := "NewHotnessUpdateEvent".

(** *** PermissionOnDistgit *)

Module PermissionOnDistgit.

Definition contains_specfile_change (c : Checker) : M World bool :=
  match pull_request c with
  | None => ret true
  | Some pr =>
      let pr_id := id pr in
      logger DEBUG ("PR " ++ str_of_Z pr_id ++ " status: "
                    ++ str_of_PRStatus (status pr)) ;;
      let diff := or_empty_dict (get_pr_files_diff c pr_id 5 5) in
      if negb (existsb (fun change => endswith change ".spec")
                 (dict_keys diff))
      then
        logger INFO ("PR " ++ str_of_Z pr_id
                     ++ " does not contain a specfile change.") ;;
        ret false
      else ret true
  end.

Definition pre_check `{Runtime} `{Imports} (c : Checker) : M World bool :=
  let d := data c in
  let jc := job_config c in
  if str_in (event_type d) [PushPagureEvent__name__] then
    let configured_branches :=
      get_branches (dist_git_branches jc) "main" true in
    if negb (opt_str_in (git_ref d) configured_branches) then
      logger INFO ("Skipping build on '" ++ str_of_opt (git_ref d) ++ "'. "
                   ++ "Koji build configured only for '"
                   ++ py_repr_set configured_branches ++ "'.") ;;
      ret false
    else
      committer0 <- getitem (event_dict d) "committer" ;;
      if value_eq_str committer0 "pagure" then
        match pull_request c with
        | None =>
            logger DEBUG ("Not able to get the pull request "
                          ++ "(may not be the head commit of the PR).") ;;
            ret false
        | Some _ =>
            has_spec <- contains_specfile_change c ;;
            if negb has_spec then ret false
            else
              let pr_author := get_pr_author c in
              logger DEBUG ("PR author: " ++ str_of_opt pr_author) ;;
              if negb (opt_str_in pr_author (allowed_pr_authors jc)) then
                logger INFO
                  ("Push event " ++ str_of_opt (identifier d)
                   ++ " with corresponding PR created by"
                   ++ " " ++ str_of_opt pr_author
                   ++ " that is not allowed in project "
                   ++ "configuration: "
                   ++ py_repr (VList (map VStr (allowed_pr_authors jc)))
                   ++ ".") ;;
                ret false
              else ret true
        end
      else
        committer <- getitem (event_dict d) "committer" ;;
        logger DEBUG ("Committer: " ++ py_str committer) ;;
        if negb (value_in_strs committer (allowed_committers jc)) then
          logger INFO
            ("Push event " ++ str_of_opt (identifier d) ++ " done by "
             ++ py_str committer ++ " that is not allowed in project "
             ++ "configuration: "
             ++ py_repr (VList (map VStr (allowed_committers jc)))
             ++ ".") ;;
          ret false
        else ret true
  else if str_in (event_type d) [PullRequestCommentPagureEvent__name__] then
    let commenter := actor d in
    logger DEBUG ("Triggering downstream koji build through comment by: "
                  ++ str_of_opt commenter) ;;
    if negb (is_packager c commenter) then
      let msg :=
        "koji-build retriggering through comment "
        ++ "on PR identifier " ++ str_of_optZ (pr_id d) ++ " "
        ++ "and project " ++ str_of_opt (project_url d) ++ " "
        ++ "done by " ++ str_of_opt commenter
        ++ " which is not a packager." in
      logger INFO msg ;;
      report_in_issue_repository
        {| issue_repository_of := issue_repository jc;
           title := "Re-triggering downstream koji build "
                    ++ "through comment in dist-git PR failed";
           message := msg ++ MSG_GET_IN_TOUCH;
           comment_to_existing := msg |} ;;
      ret false
    else ret true
  else ret true.

End PermissionOnDistgit.

(** *** ValidInformationForPullFromUpstream *)

Module ValidInformationForPullFromUpstream.

Definition msg_no_upstream_url : string :=
  "`upstream_project_url` is not set in "
  ++ "the dist-git package configuration.".

Definition msg_no_repo (c : Checker) : string :=
  "We were not able to parse repo name or repo namespace from the "
  ++ "upstream_project_url '"
  ++ str_of_opt (upstream_project_url (package_config c)) ++ "' "
  ++ "defined in the config.".

Definition msg_no_tag : string :=
  "We were not able to get the upstream tag name.".

Definition msg_not_packager (c : Checker) : string :=
  "pull-from-upstream retriggering through comment "
  ++ "on PR identifier " ++ str_of_optZ (pr_id (data c)) ++ " "
  ++ "and project " ++ str_of_opt (project_url (data c)) ++ " "
  ++ "done by " ++ str_of_opt (actor (data c))
  ++ " who is not a packager.".

(** The local variables of [pre_check]. *)
Record Locals : Type := {
  valid : bool;
  msg_to_report : option string;
  issue_title : string
}.

Definition pre_check `{Runtime} (c : Checker) : M World bool :=
  let d := data c in
  let l0 :=
    {| valid := true;
       msg_to_report := None;
       issue_title := "Pull from upstream could not be run for update "
                      ++ py_str (dict_get_value (event_dict d) "version") |} in
  let l1 :=
    if negb (truthy_str (upstream_project_url (package_config c))) then
      {| valid := false;
         msg_to_report := Some msg_no_upstream_url;
         issue_title := issue_title l0 |}
    else l0 in
  let l2 :=
    if negb (truthy (dict_get_value (event_dict d) "repo_name")
             && truthy (dict_get_value (event_dict d) "repo_namespace")) then
      {| valid := false;
         msg_to_report := Some (msg_no_repo c);
         issue_title := issue_title l1 |}
    else l1 in
  let l3 :=
    if str_in (event_type d) [NewHotnessUpdateEvent__name__]
       && negb (truthy_str (tag_name d)) then
      {| valid := false;
         msg_to_report := Some msg_no_tag;
         issue_title := issue_title l2 |}
    else l2 in
  l4 <- (if str_in (event_type d) [PullRequestCommentPagureEvent__name__] then
           let commenter := actor d in
           logger DEBUG
             ("Triggering pull-from-upstream through comment by: "
              ++ str_of_opt commenter) ;;
           if negb (is_packager c commenter) then
             (* the title is assigned its first line only: the second
                line of the source is an expression statement *)
             ret {| valid := false;
                    msg_to_report := Some (msg_not_packager c);
                    issue_title := "Re-triggering pull-from-upstream " |}
           else ret l3
         else ret l3) ;;
  (if truthy_str (msg_to_report l4) then
     let msg := str_of_opt (msg_to_report l4) in
     logger DEBUG msg ;;
     report_in_issue_repository
       {| issue_repository_of := issue_repository (job_config c);
          title := issue_title l4;
          message := msg;
          comment_to_existing := msg |}
   else ret tt) ;;
  ret (valid l4).

(** The four validation conditions in the order [pre_check] evaluates
    them: whether the condition fails, and the message it sets. *)
Definition conditions (c : Checker) : list (bool * string) :=
  let d := data c in
  [ (negb (truthy_str (upstream_project_url (package_config c))),
     msg_no_upstream_url);
    (negb (truthy (dict_get_value (event_dict d) "repo_name")
           && truthy (dict_get_value (event_dict d) "repo_namespace")),
     msg_no_repo c);
    (str_in (event_type d) [NewHotnessUpdateEvent__name__]
     && negb (truthy_str (tag_name d)),
     msg_no_tag);
    (str_in (event_type d) [PullRequestCommentPagureEvent__name__]
     && negb (is_packager c (actor d)),
     msg_not_packager c) ].

Definition failing_messages (c : Checker) : list string :=
  map snd (filter fst (conditions c)).

(** The messages of the reports a run adds. *)
Definition reported_messages (w w' : World) : list string :=
  map message (skipn (length (issue_reports w)) (issue_reports w')).

End ValidInformationForPullFromUpstream.

(** *** IsUpstreamTagMatchingConfig *)

Module IsUpstreamTagMatchingConfig.

Definition pre_check `{Runtime} (c : Checker) : M World bool :=
  match tag_name (data c) with
  | None => ret true
  | Some tag =>
      if negb (truthy (VStr tag)) then ret true
      else
        include_ok <-
          (match upstream_tag_include (job_config c) with
           | Some upstream_tag_include =>
               if truthy (VStr upstream_tag_include) then
                 matching_include_regex <-
                   re_match_call upstream_tag_include tag ;;
                 if negb matching_include_regex then
                   logger INFO
                     ("Tag " ++ tag
                      ++ " doesn't match the upstream_tag_include "
                      ++ upstream_tag_include ++ " "
                      ++ "from the config. Skipping the syncing.") ;;
                   ret false
                 else ret true
               else ret true
           | None => ret true
           end) ;;
        if negb include_ok then ret false
        else
          match upstream_tag_exclude (job_config c) with
          | Some upstream_tag_exclude =>
              if truthy (VStr upstream_tag_exclude) then
                matching_exclude_regex <-
                  re_match_call upstream_tag_exclude tag ;;
                if matching_exclude_regex then
                  logger INFO
                    ("Tag " ++ tag
                     ++ " matches the upstream_tag_exclude "
                     ++ upstream_tag_exclude ++ " "
                     ++ "from the config. Skipping the syncing.") ;;
                  ret false
                else ret true
              else ret true
          | None => ret true
          end
  end.

(** A pattern of the configuration lets a tag through: the include
    pattern when it is not set or is found at the beginning of the tag,
    the exclude pattern when it is not set or is not found there; and a
    pattern breaks on a tag when it is set and does not compile. *)
Definition include_passes `{Runtime} (include : option string)
    (tag : string) : Prop :=
  truthy_str include = false
  \/ re_match (str_of_opt include) tag = Some true.

Definition exclude_passes `{Runtime} (exclude : option string)
    (tag : string) : Prop :=
  truthy_str exclude = false
  \/ re_match (str_of_opt exclude) tag = Some false.

Definition pattern_breaks `{Runtime} (pattern : option string)
    (tag : string) : Prop :=
  truthy_str pattern = true
  /\ re_match (str_of_opt pattern) tag = None.

End IsUpstreamTagMatchingConfig.

(** *** HasIssueCommenterRetriggeringPermissions *)

Module HasIssueCommenterRetriggeringPermissions.

Definition IssueCommentEvent__name__ : string := "IssueCommentEvent".
Definition IssueCommentGitlabEvent__name__ : string :=
  "IssueCommentGitlabEvent".

Record Issue : Type := { title_of_issue : string }.

(** The project of the event: its name and the two forge calls the
    checker makes. *)
Record GitProject : Type := {
  repo : string;
  has_write_access : option string -> bool;
  get_issue : option Z -> Issue
}.

(** An actor checker: a checker with its project and the issue the
    comment was made in ([self.data.issue_id]). *)
Record ActorChecker : Type := {
  checker : Checker;
  project : GitProject;
  issue_id : option Z
}.

(** Modelled from the spec: [actor] and [project_url] are properties of
    the abstract checkers, which are not among the sources; they are
    the actor and the project URL of the event. *)
Definition self_actor (a : ActorChecker) : option string :=
  actor (data (checker a)).

Definition self_project_url (a : ActorChecker) : option string :=
  project_url (data (checker a)).

Definition _pre_check `{Imports} (a : ActorChecker) : M World bool :=
  let d := data (checker a) in
  if str_in (event_type d)
       [IssueCommentEvent__name__; IssueCommentGitlabEvent__name__] then
    logger DEBUG
      ("Re-triggering downstream koji-build through comment in "
       ++ "repo " ++ repo (project a) ++ " and issue "
       ++ str_of_optZ (issue_id a) ++ " "
       ++ "by " ++ str_of_opt (self_actor a) ++ ".") ;;
    if negb (has_write_access (project a) (self_actor a)) then
      let msg :=
        "Re-triggering downstream koji-build through comment in "
        ++ "repo **" ++ str_of_opt (self_project_url a)
        ++ "** and issue **" ++ str_of_optZ (issue_id a) ++ "** "
        ++ "is not allowed for the user *" ++ str_of_opt (self_actor a)
        ++ "* "
        ++ "which has not write permissions on the project." in
      logger INFO msg ;;
      let issue := get_issue (project a) (issue_id a) in
      report_in_issue_repository
        {| issue_repository_of := issue_repository (job_config (checker a));
           title := title_of_issue issue;
           message := msg ++ MSG_GET_IN_TOUCH;
           comment_to_existing := msg |} ;;
      ret false
    else ret true
  else ret true.

(** Whether the check turns the event down: it is a comment in an issue
    and its author cannot write to the project. *)
Definition refused (a : ActorChecker) : bool :=
  str_in (event_type (data (checker a)))
    [IssueCommentEvent__name__; IssueCommentGitlabEvent__name__]
  && negb (has_write_access (project a) (self_actor a)).

End HasIssueCommenterRetriggeringPermissions.

End Distgit.

(** ** packit_service/worker/testing_farm.py *)

Module TestingFarm.
Import Py.

Inductive level : Type := DEBUG | INFO | ERROR.

Inductive CommitStatus : Type :=
| CS_pending | CS_success | CS_failure | CS_error.

Inductive TestingFarmResult : Type :=
| TFR_new | TFR_queued | TFR_running | TFR_passed | TFR_failed | TFR_error.

(** The record the helper's [db_trigger] points to. *)
Record Trigger : Type := { trigger_id : Z }.

(** One call of [report_status_to_test_for_chroot]. *)
Record StatusReport : Type := {
  state : CommitStatus;
  description : value;
  chroot_of : string;
  url_of : option string
}.

(** One row made by [TFTTestRunModel.create]. *)
Record TFTTestRunModel : Type := {
  pipeline_id : value;
  commit_sha_of : string;
  status : TestingFarmResult;
  target : string;
  web_url : option string;
  trigger_model : Trigger
}.

Record CoprBuildModel : Type := {
  owner : string;
  project_name : string;
  build_id : string
}.

Record HttpRequest : Type := {
  method : string;
  url : string;
  params : option dict;
  json_data : option value
}.

(** What [requests] hands back: [json_body] is [None] when the body is
    not JSON ([response.json()] raises [ValueError]). *)
Record RawResponse : Type := {
  raw_status_code : Z;
  raw_ok : bool;
  raw_content : string;
  raw_json : option value;
  raw_reason : string
}.

Inductive HttpOutcome : Type :=
| Response (r : RawResponse)
| ConnectionFailed.

(** ogr's [RequestResponse]. *)
Record RequestResponse : Type := {
  status_code : Z;
  ok : bool;
  content : string;
  json : value;
  reason : string
}.

(** [bool(req)]: the class defines neither [__bool__] nor [__len__], so
    an instance is true. *)
Definition truthy_response (_ : RequestResponse) : bool := true.

Record TaskResults : Type := {
  success : bool;
  details : value
}.

Record World : Type := {
  log : list (level * string);
  sentry : list string;
  statuses : list StatusReport;
  http_log : list HttpRequest;
  test_runs : list TFTTestRunModel;
  copr_builds : list CoprBuildModel
}.

(** The helper after [__init__].  [session_request n r] is what the
    mounted session answers to request [r] when [n] requests went out
    before it; the adapter's own retries ([max_retries=5], on connection
    failures) happen inside it. *)
Record TestingFarmJobHelper : Type := {
  testing_farm_api_url : string;
  testing_farm_secret : string;
  api_url : string;
  project_url : string;
  commit_sha : string;
  db_trigger : Trigger;
  job_owner : string;
  job_project : string;
  tests_targets : list string;
  build_targets : list string;
  insecure : bool;
  session_request : nat -> HttpRequest -> HttpOutcome
}.

Definition tft_api_url (h : TestingFarmJobHelper) : string :=
  if negb (endswith (testing_farm_api_url h) "/")
  then testing_farm_api_url h ++ "/"
  else testing_farm_api_url h.

Definition logger (l : level) (msg : string) : M World unit :=
  fun w => (Ok tt,
            {| log := log w ++ [(l, msg)]; sentry := sentry w;
               statuses := statuses w; http_log := http_log w;
               test_runs := test_runs w; copr_builds := copr_builds w |}).

Definition send_to_sentry (msg : string) : M World unit :=
  fun w => (Ok tt,
            {| log := log w; sentry := sentry w ++ [msg];
               statuses := statuses w; http_log := http_log w;
               test_runs := test_runs w; copr_builds := copr_builds w |}).

(** Modelled from the spec: [report_status_to_test_for_chroot] belongs to
    CoprBuildJobHelper, which is not among the sources; it reports
    (state, description, target, url) to the status reporter. *)
Definition report_status_to_test_for_chroot
    (st : CommitStatus) (desc : value) (chroot : string)
    (u : option string) : M World unit :=
  fun w => (Ok tt,
            {| log := log w; sentry := sentry w;
               statuses := statuses w
                 ++ [{| state := st; description := desc;
                        chroot_of := chroot; url_of := u |}];
               http_log := http_log w;
               test_runs := test_runs w; copr_builds := copr_builds w |}).

(** Modelled from the spec: [TFTTestRunModel.create] belongs to the
    service's models, which are not among the sources; it inserts one
    row. *)
Definition TFTTestRunModel_create (r : TFTTestRunModel) : M World unit :=
  fun w => (Ok tt,
            {| log := log w; sentry := sentry w;
               statuses := statuses w; http_log := http_log w;
               test_runs := test_runs w ++ [r];
               copr_builds := copr_builds w |}).

(** Modelled from the spec: [CoprBuildModel.get_all_by_owner_and_project]
    belongs to the service's models; it yields the builds of
    (owner, project), most recent first. *)
Definition get_all_by_owner_and_project (o p : string)
  : M World (list CoprBuildModel) :=
  fun w => (Ok (filter (fun b => String.eqb (owner b) o
                                 && String.eqb (project_name b) p)
                  (copr_builds w)), w).

(** [self.session.request(...)]: the request goes out and the session
    answers or fails to connect. *)
Definition session_call (h : TestingFarmJobHelper) (r : HttpRequest)
  : M World RawResponse :=
  fun w =>
    let w' := {| log := log w; sentry := sentry w;
                 statuses := statuses w; http_log := http_log w ++ [r];
                 test_runs := test_runs w; copr_builds := copr_builds w |} in
    match session_request h (length (http_log w)) r with
    | Response raw => (Ok raw, w')
    | ConnectionFailed => (Raise ConnectionError, w')
    end.

Definition get_raw_request (h : TestingFarmJobHelper)
    (u : string) (m : string) (ps : option dict) (data : option value)
  : M World RequestResponse :=
  response <- session_call h {| method := m; url := u; params := ps;
                                json_data := data |} ;;
  json_output <-
    (match raw_json response with
     | Some v => ret v
     | None => logger DEBUG (raw_content response) ;; ret VNone
     end) ;;
  ret {| status_code := raw_status_code response;
         ok := raw_ok response;
         content := raw_content response;
         json := json_output;
         reason := raw_reason response |}.

Definition send_testing_farm_request (h : TestingFarmJobHelper)
    (u : string) (m : option string) (ps : option dict)
    (data : option value) : M World RequestResponse :=
  let m := match m with
           | Some m' => if truthy (VStr m') then m' else "GET"
           | None => "GET"
           end in
  try_except (get_raw_request h u m ps data)
    (fun e =>
       match e with
       | ConnectionError =>
           Some (logger ERROR "ConnectionError" ;;
                 raise (Exception ("Cannot connect to url: `" ++ u ++ "`.")))
       | _ => None
       end).
Definition get_compose_arch `{Runtime} (h : TestingFarmJobHelper)
    (chroot : string) : M World (string * string) :=
  match rsplit1 "-" chroot with
  | None => raise ValueError   (* one part cannot be unpacked into two *)
  | Some (compose0, arch) =>
      let compose := title compose0 in
      response <- send_testing_farm_request h (tft_api_url h ++ "composes")
                    None None None ;;
      (if Z.eqb (status_code response) 200 then
         composes_v <- subscript (json response) "composes" ;;
         items <- py_iter composes_v ;;
         composes <- map_M (fun c => subscript c "name") items ;;
         if negb (existsb (fun c => value_eq_str c compose) composes) then
           logger ERROR ("Can't map " ++ compose ++ " (from " ++ chroot
                         ++ ") to " ++ py_repr (VList composes))
         else ret tt
       else ret tt) ;;
      ret (compose, arch)
  end.

Definition _payload `{Runtime} (h : TestingFarmJobHelper)
    (build_id : Z) (chroot : string) : M World value :=
  ca <- get_compose_arch h chroot ;;
  let '(compose, arch) := ca in
  ret (VDict
    [ ("api_key", VStr (testing_farm_secret h));
      ("test",
       VDict [ ("fmf", VDict [ ("url", VStr (project_url h));
                               ("ref", VStr (commit_sha h)) ]) ]);
      ("environments",
       VList
         [ VDict
             [ ("arch", VStr arch);
               ("os", VDict [ ("compose", VStr compose) ]);
               ("artifacts",
                VList
                  [ VDict [ ("id", VStr (str_of_Z build_id ++ ":" ++ chroot));
                            ("type", VStr "fedora-copr-build") ] ]) ] ]);
      ("notification",
       VDict
         [ ("webhook",
            VDict [ ("url", VStr (api_url h ++ "/testing-farm/results")) ]) ])
    ]).

Definition report_missing_build_chroot (chroot : string) : M World unit :=
  report_status_to_test_for_chroot CS_error
    (VStr ("No build defined for the target '" ++ chroot ++ "'."))
    chroot None.

Definition run_testing_farm `{Runtime} (h : TestingFarmJobHelper)
    (build_id : Z) (chroot : string) : M World TaskResults :=
  if negb (str_in chroot (tests_targets h)) then
    let msg := "Target '" ++ chroot
               ++ "' not defined for tests but triggered." in
    logger ERROR msg ;;
    send_to_sentry msg ;;
    ret {| success := false; details := VDict [("msg", VStr msg)] |}
  else if negb (str_in chroot (build_targets h)) then
    report_missing_build_chroot chroot ;;
    ret {| success := false;
           details :=
             VDict [("msg",
                     VStr ("Target '" ++ chroot ++ "' not defined for build. "
                           ++ "Cannot run tests without build."))] |}
  else
    report_status_to_test_for_chroot CS_pending
      (VStr "Build succeeded. Submitting the tests ...") chroot None ;;
    logger INFO "Sending testing farm request..." ;;
    payload <- _payload h build_id chroot ;;
    let u := tft_api_url h ++ "requests" in
    logger DEBUG ("POSTing " ++ py_repr payload ++ " to " ++ u) ;;
    req <- send_testing_farm_request h u (Some "POST") None (Some payload) ;;
    logger DEBUG "Request sent" ;;
    if negb (truthy_response req) then
      let msg := "Failed to post request to testing farm API." in
      logger DEBUG "Failed to post request to testing farm API." ;;
      report_status_to_test_for_chroot CS_error (VStr msg) chroot None ;;
      ret {| success := false; details := VDict [("msg", VStr msg)] |}
    else if negb (Z.eqb (status_code req) 200) then
      (* something went wrong *)
      has_message <-
        (if truthy (json req) then contains (json req) "message"
         else ret false) ;;
      msg <-
        (if has_message then subscript (json req) "message"
         else
           let msg := "Failed to submit tests: " ++ reason req in
           logger ERROR msg ;;
           ret (VStr msg)) ;;
      report_status_to_test_for_chroot CS_failure msg chroot None ;;
      ret {| success := false; details := VDict [("msg", msg)] |}
    else
      pipeline_id <- subscript (json req) "id" ;;
      logger DEBUG ("Submitted (" ++ str_of_Z (status_code req)
                    ++ ") to testing farm as request "
                    ++ py_str pipeline_id) ;;
      TFTTestRunModel_create
        {| pipeline_id := pipeline_id;
           commit_sha_of := commit_sha h;
           status := TFR_new;
           target := chroot;
           web_url := None;
           trigger_model := db_trigger h |} ;;
      report_status_to_test_for_chroot CS_pending
        (VStr "Tests have been submitted ...") chroot
        (Some (tft_api_url h ++ "requests/" ++ py_str pipeline_id)) ;;
      ret {| success := true; details := VDict [] |}.

Definition run_testing_farm_on_all `{Runtime} (h : TestingFarmJobHelper)
  : M World TaskResults :=
  copr_builds <- get_all_by_owner_and_project (job_owner h) (job_project h) ;;
  match copr_builds with
  | [] =>
      ret {| success := false;
             details :=
               VDict [("msg",
                       VStr ("No copr builds for " ++ job_owner h ++ "/"
                             ++ job_project h))] |}
  | latest :: _ =>
      match py_int (build_id latest) with
      | None => raise ValueError
      | Some latest_copr_build_id =>
          failed <-
            for_each (tests_targets h) []
              (fun failed chroot =>
                 result <- run_testing_farm h latest_copr_build_id chroot ;;
                 if negb (success result)
                 then ret (dict_set failed chroot (details result))
                 else ret failed) ;;
          if negb (truthy (VDict failed)) then
            ret {| success := true; details := VDict [] |}
          else
            (* the details are what [update] returns, not the dict it
               was called on *)
            ret {| success := false;
                   details :=
                     snd (dict_update
                            [("msg",
                              VStr ("Failed testing farm targets: '"
                                    ++ "dict_keys("
                                    ++ py_repr
                                         (VList (map VStr (dict_keys failed)))
                                    ++ ")" ++ "'."))]
                            failed) |}
      end
  end.

(** The state in which [run_testing_farm] builds its payload: the
    pending status is reported and the start of the request is logged. *)
Definition before_payload (chroot : string) (w : World) : World :=
  snd ((report_status_to_test_for_chroot CS_pending
          (VStr "Build succeeded. Submitting the tests ...") chroot None ;;
        logger INFO "Sending testing farm request...") w).

(** The request [run_testing_farm] posts. *)
Definition post_request (h : TestingFarmJobHelper) (payload : value)
  : HttpRequest :=
  {| method := "POST"; url := tft_api_url h ++ "requests";
     params := None; json_data := Some payload |}.

(** The request [get_compose_arch] sends for the catalog. *)
Definition composes_request (h : TestingFarmJobHelper) : HttpRequest :=
  {| method := "GET"; url := tft_api_url h ++ "composes";
     params := None; json_data := None |}.

(** What a step leaves alone when it only logs and talks to the
    service. *)
Definition quiet (w w' : World) : Prop :=
  sentry w' = sentry w /\ statuses w' = statuses w
  /\ test_runs w' = test_runs w /\ copr_builds w' = copr_builds w.

(** The test runs a computation adds all have a declared test target. *)
Definition adds_declared {A} (h : TestingFarmJobHelper) (m : M World A)
  : Prop :=
  forall w, exists added,
    test_runs (snd (m w)) = (test_runs w ++ added)%list
    /\ Forall (fun r => In (target r) (tests_targets h)) added.

(** The pending status [run_testing_farm] reports before it submits. *)
Definition submitting_status (chroot : string) : StatusReport :=
  {| state := CS_pending;
     description := VStr "Build succeeded. Submitting the tests ...";
     chroot_of := chroot; url_of := None |}.

(** [submitted h build_id targets w results w']: submitting the targets
    one after the other from state [w], each submission returns, with
    these results in this order, and the last one leaves state [w']. *)
Inductive submitted `{Runtime} (h : TestingFarmJobHelper) (build_id : Z)
  : list string -> World -> list TaskResults -> World -> Prop :=
| submitted_nil (w : World) : submitted h build_id [] w [] w
| submitted_cons (chroot : string) (targets : list string)
    (w w1 w2 : World) (r : TaskResults) (rs : list TaskResults) :
    run_testing_farm h build_id chroot w = (Ok r, w1) ->
    submitted h build_id targets w1 rs w2 ->
    submitted h build_id (chroot :: targets) w (r :: rs) w2.

(** The status [report_missing_build_chroot] reports. *)
Definition missing_build_status (chroot : string) : StatusReport :=
  {| state := CS_error;
     description :=
       VStr ("No build defined for the target '" ++ chroot ++ "'.");
     chroot_of := chroot; url_of := None |}.

(** The test run a successful submission stores, and the status it
    reports, for the pipeline id the service gave. *)
Definition stored_run (h : TestingFarmJobHelper) (chroot : string)
    (pid : value) : TFTTestRunModel :=
  {| pipeline_id := pid; commit_sha_of := commit_sha h; status := TFR_new;
     target := chroot; web_url := None; trigger_model := db_trigger h |}.

Definition submitted_status `{Runtime} (h : TestingFarmJobHelper)
    (chroot : string) (pid : value) : StatusReport :=
  {| state := CS_pending;
     description := VStr "Tests have been submitted ...";
     chroot_of := chroot;
     url_of := Some (tft_api_url h ++ "requests/" ++ py_str pid) |}.

End TestingFarm.

(** ** Concrete instances and inputs *)

Module Sample.
Import Py.

Fixpoint join (sep : string) (l : list string) : string :=
  match l with
  | [] => EmptyString
  | [x] => x
  | x :: l' => x ++ sep ++ join sep l'
  end.

(** [repr] on values whose strings need no escaping. *)
Fixpoint repr_plain (v : value) : string :=
  match v with
  | VNone => "None"
  | VBool true => "True"
  | VBool false => "False"
  | VInt z => str_of_Z z
  | VStr s => "'" ++ s ++ "'"
  | VList l => "[" ++ join ", " (map repr_plain l) ++ "]"
  | VDict d =>
      "{" ++ join ", "
               (map (fun kv : string * value => let (k, x) := kv in
                               "'" ++ k ++ "': " ++ repr_plain x) d)
      ++ "}"
  end.

(** [int] on plain decimal numerals. *)
Definition int_plain (s : string) : option Z :=
  option_map Z.of_int (NilZero.int_of_string s).

(** [re.match] on patterns that are literal text, and on those that
    begin with a repetition sign: a literal pattern matches at the
    beginning of a string exactly when it is a prefix of it; a pattern
    that begins with "*", "+" or "?" has nothing to repeat and does not
    compile. *)
Definition match_plain (pattern s : string) : option bool :=
  if startswith pattern "*" || startswith pattern "+"
     || startswith pattern "?"
  then None
  else Some (startswith s pattern).

#[export] Instance runtime : Runtime := {
  py_repr := repr_plain;
  py_repr_set := fun l => "{" ++ join ", " (map (fun s => "'" ++ s ++ "'") l)
                          ++ "}";
  py_int := int_plain;
  re_match := match_plain
}.

(** Branch names without aliases. *)
#[export] Instance imports : Distgit.Imports := {
  Distgit.get_branches := fun names default _ =>
    match names with [] => [default] | _ => names end;
  Distgit.MSG_GET_IN_TOUCH := " Get in touch with us if you need some help."
}.

(** *** Dist-git events *)

Definition no_diff : Z -> nat -> nat -> option dict := fun _ _ _ => None.

Definition job : Distgit.JobConfig :=
  {| Distgit.dist_git_branches := [];
     Distgit.allowed_pr_authors := ["alice"];
     Distgit.allowed_committers := ["alice"];
     Distgit.issue_repository := Some "https://github.com/packit/issues";
     Distgit.upstream_tag_include := Some "v";
     Distgit.upstream_tag_exclude := Some "v0" |}.

Definition package : Distgit.PackageConfig :=
  {| Distgit.upstream_project_url := Some "https://github.com/packit/ogr" |}.

Definition push_data (committer : string) : Distgit.EventData :=
  {| Distgit.event_type := "PushPagureEvent";
     Distgit.actor := Some committer;
     Distgit.git_ref := Some "main";
     Distgit.pr_id := None;
     Distgit.project_url := Some "https://src.fedoraproject.org/rpms/ogr";
     Distgit.identifier := Some "main";
     Distgit.tag_name := None;
     Distgit.event_dict := [("committer", VStr committer)] |}.

(** A push by a committer the configuration does not allow. *)
Definition direct_push : Distgit.Checker :=
  {| Distgit.data := push_data "mallory";
     Distgit.job_config := job;
     Distgit.package_config := package;
     Distgit.pull_request := None;
     Distgit.get_pr_files_diff := no_diff;
     Distgit.is_packager := fun _ => false |}.

(** A push made by the forge when it merged pull request 7. *)
Definition merged_push (pr_author : string)
    (diff : Z -> nat -> nat -> option dict) : Distgit.Checker :=
  {| Distgit.data := push_data "pagure";
     Distgit.job_config := job;
     Distgit.package_config := package;
     Distgit.pull_request :=
       Some {| Distgit.id := 7; Distgit.status := Distgit.PR_merged;
               Distgit.author := pr_author |};
     Distgit.get_pr_files_diff := diff;
     Distgit.is_packager := fun _ => false |}.

Definition spec_diff : Z -> nat -> nat -> option dict :=
  fun _ _ _ => Some [("README.md", VStr "+docs"); ("ogr.spec", VStr "+1")].

Definition empty_world : Distgit.World :=
  {| Distgit.log := []; Distgit.issue_reports := [] |}.

(** *** Pull-from-upstream events *)

(** A release notification for a package whose configuration has no
    upstream URL and whose event has no repository name. *)
Definition update_without_url : Distgit.Checker :=
  {| Distgit.data :=
       {| Distgit.event_type := "NewHotnessUpdateEvent";
          Distgit.actor := None;
          Distgit.git_ref := None;
          Distgit.pr_id := None;
          Distgit.project_url := Some "https://src.fedoraproject.org/rpms/ogr";
          Distgit.identifier := None;
          Distgit.tag_name := Some "v1.2";
          Distgit.event_dict := [("version", VStr "1.2")] |};
     Distgit.job_config := job;
     Distgit.package_config := {| Distgit.upstream_project_url := None |};
     Distgit.pull_request := None;
     Distgit.get_pr_files_diff := no_diff;
     Distgit.is_packager := fun _ => false |}.

(** A retrigger comment in pull request 12 by someone who is not a
    packager; the configuration and the event are complete. *)
Definition comment_by_stranger : Distgit.Checker :=
  {| Distgit.data :=
       {| Distgit.event_type := "PullRequestCommentPagureEvent";
          Distgit.actor := Some "mallory";
          Distgit.git_ref := None;
          Distgit.pr_id := Some 12%Z;
          Distgit.project_url := Some "https://src.fedoraproject.org/rpms/ogr";
          Distgit.identifier := Some "12";
          Distgit.tag_name := None;
          Distgit.event_dict :=
            [("version", VStr "1.2"); ("repo_name", VStr "ogr");
             ("repo_namespace", VStr "packit")] |};
     Distgit.job_config := job;
     Distgit.package_config := package;
     Distgit.pull_request := None;
     Distgit.get_pr_files_diff := no_diff;
     Distgit.is_packager := fun _ => false |}.

(** A release notification carrying the given tag; [job] includes the
    tags that begin with "v" and excludes those that begin with "v0". *)
Definition tagged_update (tag : option string) : Distgit.Checker :=
  {| Distgit.data :=
       {| Distgit.event_type := "NewHotnessUpdateEvent";
          Distgit.actor := None;
          Distgit.git_ref := None;
          Distgit.pr_id := None;
          Distgit.project_url := Some "https://src.fedoraproject.org/rpms/ogr";
          Distgit.identifier := None;
          Distgit.tag_name := tag;
          Distgit.event_dict := [("version", VStr "1.2")] |};
     Distgit.job_config := job;
     Distgit.package_config := package;
     Distgit.pull_request := None;
     Distgit.get_pr_files_diff := no_diff;
     Distgit.is_packager := fun _ => false |}.

(** *** Testing Farm *)

Definition composes_response : TestingFarm.RawResponse :=
  {| TestingFarm.raw_status_code := 200;
     TestingFarm.raw_ok := true;
     TestingFarm.raw_content := "{...}";
     TestingFarm.raw_json :=
       Some (VDict [("composes",
                     VList [VDict [("name", VStr "Fedora-33")];
                            VDict [("name", VStr "Fedora-Rawhide")]])]);
     TestingFarm.raw_reason := "OK" |}.

(** The service rejects a submission: 400 with a message. *)
Definition bad_env_response : TestingFarm.RawResponse :=
  {| TestingFarm.raw_status_code := 400;
     TestingFarm.raw_ok := false;
     TestingFarm.raw_content := "{...}";
     TestingFarm.raw_json := Some (VDict [("message", VStr "bad env")]);
     TestingFarm.raw_reason := "Bad Request" |}.

(** The service accepts a submission. *)
Definition accepted_response : TestingFarm.RawResponse :=
  {| TestingFarm.raw_status_code := 200;
     TestingFarm.raw_ok := true;
     TestingFarm.raw_content := "{...}";
     TestingFarm.raw_json := Some (VDict [("id", VStr "abc-123")]);
     TestingFarm.raw_reason := "OK" |}.

(** A session that serves the catalog to a GET and [post] to a POST. *)
Definition session (post : TestingFarm.RawResponse)
  : nat -> TestingFarm.HttpRequest -> TestingFarm.HttpOutcome :=
  fun _ r =>
    if String.eqb (TestingFarm.method r) "GET"
    then TestingFarm.Response composes_response
    else TestingFarm.Response post.

Definition helper (tests builds : list string)
    (post : TestingFarm.RawResponse) : TestingFarm.TestingFarmJobHelper :=
  {| TestingFarm.testing_farm_api_url := "https://api.dev.testing-farm.io/v0.1";
     TestingFarm.testing_farm_secret := "secret";
     TestingFarm.api_url := "https://prod.packit.dev/api";
     TestingFarm.project_url := "https://github.com/packit/ogr";
     TestingFarm.commit_sha := "0011223344";
     TestingFarm.db_trigger := {| TestingFarm.trigger_id := 1 |};
     TestingFarm.job_owner := "packit";
     TestingFarm.job_project := "ogr-12";
     TestingFarm.tests_targets := tests;
     TestingFarm.build_targets := builds;
     TestingFarm.insecure := false;
     TestingFarm.session_request := session post |}.

(** A database with one Copr build of packit/ogr-12 and no test run. *)
Definition farm_world : TestingFarm.World :=
  {| TestingFarm.log := [];
     TestingFarm.sentry := [];
     TestingFarm.statuses := [];
     TestingFarm.http_log := [];
     TestingFarm.test_runs := [];
     TestingFarm.copr_builds :=
       [ {| TestingFarm.owner := "packit";
            TestingFarm.project_name := "ogr-12";
            TestingFarm.build_id := "1044215" |} ] |}.

(** *** More dist-git events *)

(** A push to a branch the job is not configured for; the event carries
    no committer. *)
Definition off_branch_push : Distgit.Checker :=
  {| Distgit.data :=
       {| Distgit.event_type := "PushPagureEvent";
          Distgit.actor := None;
          Distgit.git_ref := Some "f35";
          Distgit.pr_id := None;
          Distgit.project_url := Some "https://src.fedoraproject.org/rpms/ogr";
          Distgit.identifier := Some "f35";
          Distgit.tag_name := None;
          Distgit.event_dict := [] |};
     Distgit.job_config := job;
     Distgit.package_config := package;
     Distgit.pull_request := None;
     Distgit.get_pr_files_diff := no_diff;
     Distgit.is_packager := fun _ => false |}.

(** A push to "main" whose event carries no committer. *)
Definition push_without_committer : Distgit.Checker :=
  {| Distgit.data :=
       {| Distgit.event_type := "PushPagureEvent";
          Distgit.actor := None;
          Distgit.git_ref := Some "main";
          Distgit.pr_id := None;
          Distgit.project_url := Some "https://src.fedoraproject.org/rpms/ogr";
          Distgit.identifier := Some "main";
          Distgit.tag_name := None;
          Distgit.event_dict := [("version", VStr "1.2")] |};
     Distgit.job_config := job;
     Distgit.package_config := package;
     Distgit.pull_request := None;
     Distgit.get_pr_files_diff := no_diff;
     Distgit.is_packager := fun _ => false |}.

(** A push to "main" by an allowed committer. *)
Definition allowed_push : Distgit.Checker :=
  {| Distgit.data := push_data "alice";
     Distgit.job_config := job;
     Distgit.package_config := package;
     Distgit.pull_request := None;
     Distgit.get_pr_files_diff := no_diff;
     Distgit.is_packager := fun _ => false |}.


(** A retrigger comment in issue 5 of the issue repository, by a user
    with or without write access to the project. *)
Definition issue_comment (can_write : bool)
  : Distgit.HasIssueCommenterRetriggeringPermissions.ActorChecker :=
  {| Distgit.HasIssueCommenterRetriggeringPermissions.checker :=
       {| Distgit.data :=
            {| Distgit.event_type := "IssueCommentEvent";
               Distgit.actor := Some "mallory";
               Distgit.git_ref := None;
               Distgit.pr_id := None;
               Distgit.project_url := Some "https://github.com/packit/ogr";
               Distgit.identifier := Some "5";
               Distgit.tag_name := None;
               Distgit.event_dict := [] |};
          Distgit.job_config := job;
          Distgit.package_config := package;
          Distgit.pull_request := None;
          Distgit.get_pr_files_diff := no_diff;
          Distgit.is_packager := fun _ => false |};
     Distgit.HasIssueCommenterRetriggeringPermissions.project :=
       {| Distgit.HasIssueCommenterRetriggeringPermissions.repo := "ogr";
          Distgit.HasIssueCommenterRetriggeringPermissions.has_write_access :=
            fun _ => can_write;
          Distgit.HasIssueCommenterRetriggeringPermissions.get_issue :=
            fun _ =>
              {| Distgit.HasIssueCommenterRetriggeringPermissions.title_of_issue
                   := "Koji build failed to be triggered" |} |};
     Distgit.HasIssueCommenterRetriggeringPermissions.issue_id :=
       Some 5%Z |}.

(** *** More answers of the service *)

(** A rejection whose body is not JSON. *)
Definition plain_error_response : TestingFarm.RawResponse :=
  {| TestingFarm.raw_status_code := 500;
     TestingFarm.raw_ok := false;
     TestingFarm.raw_content := "<html>Internal Server Error</html>";
     TestingFarm.raw_json := None;
     TestingFarm.raw_reason := "Internal Server Error" |}.

(** An acceptance whose body has no "id". *)
Definition accepted_without_id : TestingFarm.RawResponse :=
  {| TestingFarm.raw_status_code := 200;
     TestingFarm.raw_ok := true;
     TestingFarm.raw_content := "{...}";
     TestingFarm.raw_json := Some (VDict [("state", VStr "new")]);
     TestingFarm.raw_reason := "OK" |}.

(** A session that serves [catalog] to a GET and cannot connect for a
    POST. *)
Definition session_down_for_post (catalog : TestingFarm.RawResponse)
  : nat -> TestingFarm.HttpRequest -> TestingFarm.HttpOutcome :=
  fun _ r =>
    if String.eqb (TestingFarm.method r) "GET"
    then TestingFarm.Response catalog
    else TestingFarm.ConnectionFailed.

(** The helper [helper tests builds post] with another session. *)
Definition helper_with
    (session : nat -> TestingFarm.HttpRequest -> TestingFarm.HttpOutcome)
    (tests builds : list string) : TestingFarm.TestingFarmJobHelper :=
  {| TestingFarm.testing_farm_api_url := "https://api.dev.testing-farm.io/v0.1";
     TestingFarm.testing_farm_secret := "secret";
     TestingFarm.api_url := "https://prod.packit.dev/api";
     TestingFarm.project_url := "https://github.com/packit/ogr";
     TestingFarm.commit_sha := "0011223344";
     TestingFarm.db_trigger := {| TestingFarm.trigger_id := 1 |};
     TestingFarm.job_owner := "packit";
     TestingFarm.job_project := "ogr-12";
     TestingFarm.tests_targets := tests;
     TestingFarm.build_targets := builds;
     TestingFarm.insecure := false;
     TestingFarm.session_request := session |}.

(** A catalog that has no Fedora 33. *)
Definition rawhide_only_catalog : TestingFarm.RawResponse :=
  {| TestingFarm.raw_status_code := 200;
     TestingFarm.raw_ok := true;
     TestingFarm.raw_content := "{...}";
     TestingFarm.raw_json :=
       Some (VDict [("composes",
                     VList [VDict [("name", VStr "Fedora-Rawhide")]])]);
     TestingFarm.raw_reason := "OK" |}.

(** A catalog answer with status 200 and no "composes". *)
Definition catalog_without_composes : TestingFarm.RawResponse :=
  {| TestingFarm.raw_status_code := 200;
     TestingFarm.raw_ok := true;
     TestingFarm.raw_content := "{}";
     TestingFarm.raw_json := Some (VDict []);
     TestingFarm.raw_reason := "OK" |}.

(** A database without any Copr build. *)
Definition empty_farm_world : TestingFarm.World :=
  {| TestingFarm.log := [];
     TestingFarm.sentry := [];
     TestingFarm.statuses := [];
     TestingFarm.http_log := [];
     TestingFarm.test_runs := [];
     TestingFarm.copr_builds := [] |}.

(** *** Further inputs *)

(** A release notification with tag "v0.9" for a job whose include
    pattern is "*", which is not a regular expression, and whose exclude
    pattern "v0" matches the tag. *)
Definition update_with_broken_include : Distgit.Checker :=
  {| Distgit.data :=
       {| Distgit.event_type := "NewHotnessUpdateEvent";
          Distgit.actor := None;
          Distgit.git_ref := None;
          Distgit.pr_id := None;
          Distgit.project_url := Some "https://src.fedoraproject.org/rpms/ogr";
          Distgit.identifier := None;
          Distgit.tag_name := Some "v0.9";
          Distgit.event_dict := [("version", VStr "0.9")] |};
     Distgit.job_config :=
       {| Distgit.dist_git_branches := [];
          Distgit.allowed_pr_authors := ["alice"];
          Distgit.allowed_committers := ["alice"];
          Distgit.issue_repository := Some "https://github.com/packit/issues";
          Distgit.upstream_tag_include := Some "*";
          Distgit.upstream_tag_exclude := Some "v0" |};
     Distgit.package_config := package;
     Distgit.pull_request := None;
     Distgit.get_pr_files_diff := no_diff;
     Distgit.is_packager := fun _ => false |}.

(** The service answers 201 Created, a success status, with an id. *)
Definition created_response : TestingFarm.RawResponse :=
  {| TestingFarm.raw_status_code := 201;
     TestingFarm.raw_ok := true;
     TestingFarm.raw_content := "{...}";
     TestingFarm.raw_json := Some (VDict [("id", VStr "abc-123")]);
     TestingFarm.raw_reason := "Created" |}.

End Sample.

(** ** Facts about the string and list helpers *)

Section Helpers.
Import Py.

Lemma substring_all (s : string) : substring 0 (String.length s) s = s.
Proof.
  induction s as [|c s IH]; simpl; [reflexivity | now rewrite IH].
Qed.

Lemma substring_split (s : string) :
  forall k, k <= String.length s ->
    s = substring 0 k s ++ substring k (String.length s - k) s.
Proof.
  induction s as [|c s IH]; intros k Hk; simpl in Hk.
  - assert (k = 0) by lia. subst k. reflexivity.
  - destruct k as [|k].
    + simpl. now rewrite substring_all.
    + simpl. f_equal. apply IH. lia.
Qed.

Lemma substring_app_suffix (p s : string) :
  substring (String.length p) (String.length s) (p ++ s) = s.
Proof.
  induction p as [|c p IH]; simpl.
  - apply substring_all.
  - exact IH.
Qed.

Lemma length_app (p s : string) :
  String.length (p ++ s) = String.length p + String.length s.
Proof.
  induction p as [|c p IH]; simpl; [reflexivity | now rewrite IH].
Qed.

Lemma endswith_iff (s suffix : string) :
  endswith s suffix = true <-> ends_with s suffix.
Proof.
  unfold endswith, ends_with. split.
  - intros E. apply andb_true_iff in E. destruct E as [Hle Heq].
    apply Nat.leb_le in Hle. apply String.eqb_eq in Heq.
    exists (substring 0 (String.length s - String.length suffix) s).
    pose proof (substring_split s
                  (String.length s - String.length suffix)) as Hs.
    replace (String.length s - (String.length s - String.length suffix))
      with (String.length suffix) in Hs by lia.
    rewrite Heq in Hs. apply Hs. lia.
  - intros [p ->]. rewrite length_app.
    apply andb_true_iff. split.
    + apply Nat.leb_le. lia.
    + replace (String.length p + String.length suffix - String.length suffix)
        with (String.length p) by lia.
      rewrite substring_app_suffix. apply String.eqb_refl.
Qed.

Lemma str_in_iff (x : string) (l : list string) :
  str_in x l = true <-> In x l.
Proof.
  unfold str_in. rewrite existsb_exists. split.
  - intros [y [Hy E]]. apply String.eqb_eq in E. now subst.
  - intros Hx. exists x. split; [assumption | apply String.eqb_refl].
Qed.

Lemma startswith_app (a b : string) : startswith (a ++ b) a = true.
Proof.
  induction a as [|c a IH]; simpl; [destruct b; reflexivity|].
  now rewrite Ascii.eqb_refl, IH.
Qed.


Lemma startswith_refl (a : string) : startswith a a = true.
Proof.
  induction a as [|c a IH]; cbn; [reflexivity|].
  now rewrite Ascii.eqb_refl, IH.
Qed.

Lemma str_contains_app_l (a s sub : string) :
  str_contains s sub = true -> str_contains (a ++ s) sub = true.
Proof.
  intros Hs. induction a as [|x a IH]; [exact Hs|].
  change (String x a ++ s) with (String x (a ++ s)).
  cbn [str_contains]. rewrite IH. apply orb_true_r.
Qed.

Lemma str_contains_prefix (a b : string) : str_contains (a ++ b) a = true.
Proof.
  pose proof (startswith_app a b) as P.
  destruct (a ++ b); cbn [str_contains]; now rewrite P.
Qed.

Lemma str_contains_refl (a : string) : str_contains a a = true.
Proof.
  pose proof (startswith_refl a) as P.
  destruct a; cbn [str_contains]; now rewrite P.
Qed.


End Helpers.

(** ** PermissionOnDistgit *)

Section PermissionOnDistgitFacts.
Import Py Distgit Distgit.PermissionOnDistgit.
Context `{RT : Runtime} `{IM : Imports}.

Lemma has_spec_iff (x : option dict) :
  existsb (fun change => endswith change ".spec")
    (dict_keys (or_empty_dict x)) = true
  <-> exists d path,
        x = Some d /\ In path (dict_keys d) /\ ends_with path ".spec".
Proof.
  rewrite existsb_exists. split.
  - intros [path [Hin He]]. apply endswith_iff in He.
    destruct x as [d|]; [|destruct Hin].
    exists d, path. repeat split; try assumption.
    unfold or_empty_dict in Hin. destruct d; [destruct Hin | exact Hin].
  - intros [d [path [-> [Hin He]]]]. exists path. split.
    + unfold or_empty_dict. destruct d; [destruct Hin | exact Hin].
    + now apply endswith_iff.
Qed.

(** C6: a push to an allowlisted branch whose committer is the forge's
    merge-service account ("pagure") is accepted if and only if the
    originating pull request is found, the diff of that pull request
    (retrieved with 5 retries, 5 seconds apart) has a path ending in
    ".spec", and the author of the pull request is among the allowed
    authors. *)
Theorem merge_service_push_accepted_iff (c : Checker) (w : World) :
  event_type (data c) = PushPagureEvent__name__ ->
  opt_str_in (git_ref (data c))
    (get_branches (dist_git_branches (job_config c)) "main" true) = true ->
  dict_get (event_dict (data c)) "committer" = Some (VStr "pagure") ->
  fst (pre_check c w) = Ok true
  <-> exists pr,
        pull_request c = Some pr
        /\ (exists d path,
              get_pr_files_diff c (id pr) 5 5 = Some d
              /\ In path (dict_keys d) /\ ends_with path ".spec")
        /\ In (author pr) (allowed_pr_authors (job_config c)).
Proof.
  intros Hev Hbr Hcom.
  unfold pre_check. rewrite Hev. cbn [str_in existsb].
  change (String.eqb PushPagureEvent__name__ PushPagureEvent__name__)
    with true.
  cbn [orb]. rewrite Hbr. cbn [negb].
  unfold bind at 1. unfold getitem. rewrite Hcom.
  cbn [ret value_eq_str]. change (String.eqb "pagure" "pagure") with true.
  cbv iota.
  destruct (pull_request c) as [pr|] eqn:Epr.
  - unfold contains_specfile_change, get_pr_author. rewrite Epr.
    cbn [option_map opt_str_in str_of_opt].
    unfold bind, logger, ret. cbn [fst snd].
    destruct (existsb _ (dict_keys (or_empty_dict _))) eqn:Espec; cbn.
    + destruct (str_in (author pr) (allowed_pr_authors (job_config c)))
        eqn:Eau; cbn.
      * split; [intros _|reflexivity].
        exists pr. split; [reflexivity|]. split.
        -- now apply has_spec_iff.
        -- now apply str_in_iff.
      * split; [discriminate|].
        intros [pr' [E [_ Hin]]]. injection E as <-.
        apply str_in_iff in Hin. congruence.
    + split; [discriminate|].
      intros [pr' [E [Hd _]]]. injection E as <-.
      apply has_spec_iff in Hd. congruence.
  - cbn. split; [discriminate|]. intros [pr [E _]]. discriminate.
Qed.

(** C10: on a merge-service push whose diff retrieval yields nothing
    ([None] after the retries), the specfile-change check takes the diff
    as empty and returns false, and the gate rejects the event; neither
    raises. *)
Theorem missing_diff_is_no_specfile_change
    (c : Checker) (w : World) (pr : PullRequest) :
  event_type (data c) = PushPagureEvent__name__ ->
  opt_str_in (git_ref (data c))
    (get_branches (dist_git_branches (job_config c)) "main" true) = true ->
  dict_get (event_dict (data c)) "committer" = Some (VStr "pagure") ->
  pull_request c = Some pr ->
  get_pr_files_diff c (id pr) 5 5 = None ->
  or_empty_dict (get_pr_files_diff c (id pr) 5 5) = []
  /\ fst (contains_specfile_change c w) = Ok false
  /\ fst (pre_check c w) = Ok false.
Proof.
  intros Hev Hbr Hcom Hpr Hdiff.
  assert (Hc : forall w0, fst (contains_specfile_change c w0) = Ok false).
  { intros w0. unfold contains_specfile_change. rewrite Hpr, Hdiff.
    reflexivity. }
  split; [now rewrite Hdiff|]. split; [apply Hc|].
  unfold pre_check. rewrite Hev. cbn [str_in existsb].
  change (String.eqb PushPagureEvent__name__ PushPagureEvent__name__)
    with true.
  cbn [orb]. rewrite Hbr. cbn [negb].
  unfold bind at 1. unfold getitem. rewrite Hcom.
  cbn [ret value_eq_str]. change (String.eqb "pagure" "pagure") with true.
  cbv iota. rewrite Hpr. unfold bind at 1.
  specialize (Hc w).
  destruct (contains_specfile_change c w) as [[b|e] w']; cbn in Hc;
    [|discriminate].
  injection Hc as ->. reflexivity.
Qed.

(** C5 (as the code has it): a push rejected because its committer is
    not among the allowed committers, or because the author of the
    originating pull request is not among the allowed authors, is
    rejected with an info-level log entry as the last thing done, and no
    report goes to the issue repository.  The entry is the message of
    the source, which names the event, the offender (the committer, or
    the author of the pull request) and the allowed names. *)
Theorem push_mismatch_is_logged_not_reported
    (c : Checker) (w : World) (committer : value) :
  event_type (data c) = PushPagureEvent__name__ ->
  opt_str_in (git_ref (data c))
    (get_branches (dist_git_branches (job_config c)) "main" true) = true ->
  dict_get (event_dict (data c)) "committer" = Some committer ->
  (value_eq_str committer "pagure" = false
   /\ value_in_strs committer (allowed_committers (job_config c)) = false)
  \/ (value_eq_str committer "pagure" = true
      /\ exists pr,
           pull_request c = Some pr
           /\ existsb (fun change => endswith change ".spec")
                (dict_keys (or_empty_dict (get_pr_files_diff c (id pr) 5 5)))
              = true
           /\ str_in (author pr) (allowed_pr_authors (job_config c))
              = false) ->
  exists entries offender msg,
    pre_check c w
    = (Ok false,
       {| log := log w ++ entries ++ [(INFO, msg)];
          issue_reports := issue_reports w |})
    /\ offender
       = (if value_eq_str committer "pagure"
          then str_of_opt (get_pr_author c)
          else py_str committer)
    /\ msg
       = "Push event " ++ str_of_opt (identifier (data c))
         ++ (if value_eq_str committer "pagure"
             then " with corresponding PR created by " ++ offender
                  ++ " that is not allowed in project configuration: "
                  ++ py_repr
                       (VList (map VStr (allowed_pr_authors (job_config c))))
                  ++ "."
             else " done by " ++ offender
                  ++ " that is not allowed in project configuration: "
                  ++ py_repr
                       (VList (map VStr (allowed_committers (job_config c))))
                  ++ ".")
    /\ str_contains msg offender = true.
Proof.
  intros Hev Hbr Hcom Hcase.
  unfold pre_check. rewrite Hev. cbn [str_in existsb].
  change (String.eqb PushPagureEvent__name__ PushPagureEvent__name__)
    with true.
  cbn [orb]. rewrite Hbr. cbn [negb].
  unfold bind at 1. unfold getitem. rewrite Hcom. cbn [ret].
  destruct Hcase as [[Hnp Hnot] | [Hp [pr [Hpr [Hspec Hau]]]]].
  - rewrite Hnp. unfold bind at 1. cbn [ret].
    rewrite Hnot.
    exists [(DEBUG, "Committer: " ++ py_str committer)],
           (py_str committer),
           ("Push event " ++ str_of_opt (identifier (data c))
            ++ " done by " ++ py_str committer
            ++ " that is not allowed in project configuration: "
            ++ py_repr (VList (map VStr (allowed_committers (job_config c))))
            ++ ".").
    split; [|split; [reflexivity|split; [reflexivity|]]].
    + unfold bind, logger, ret. cbn. rewrite <- app_assoc. reflexivity.
    + apply str_contains_app_l, str_contains_app_l, str_contains_app_l,
        str_contains_prefix.
  - rewrite Hp, Hpr.
    unfold contains_specfile_change, get_pr_author. rewrite Hpr.
    cbn [option_map opt_str_in str_of_opt].
    exists [(DEBUG, "PR " ++ str_of_Z (id pr) ++ " status: "
                    ++ str_of_PRStatus (status pr));
            (DEBUG, "PR author: " ++ author pr)],
           (author pr),
           ("Push event " ++ str_of_opt (identifier (data c))
            ++ " with corresponding PR created by " ++ author pr
            ++ " that is not allowed in project configuration: "
            ++ py_repr (VList (map VStr (allowed_pr_authors (job_config c))))
            ++ ".").
    split; [|split; [reflexivity|split; [reflexivity|]]].
    + unfold bind, logger, ret. cbn [fst snd]. rewrite Hspec. cbn [negb].
      cbn [fst snd]. rewrite Hau. cbn. rewrite <- !app_assoc. reflexivity.
    + apply str_contains_app_l, str_contains_app_l, str_contains_app_l,
        str_contains_prefix.
Qed.

End PermissionOnDistgitFacts.

Section PermissionOnDistgitExamples.
Import Py Distgit Distgit.PermissionOnDistgit.

Lemma merge_service_push_accepted_iff_witness :
  fst (@pre_check Sample.runtime Sample.imports
         (Sample.merged_push "alice" Sample.spec_diff) Sample.empty_world)
  = Ok true.
Proof.
  apply (@merge_service_push_accepted_iff Sample.runtime Sample.imports
           (Sample.merged_push "alice" Sample.spec_diff)
           Sample.empty_world); try reflexivity.
  eexists. split; [reflexivity|]. split.
  - eexists _, "ogr.spec". split; [reflexivity|]. split.
    + simpl. right. left. reflexivity.
    + exists "ogr". reflexivity.
  - simpl. left. reflexivity.
Defined.

Lemma missing_diff_is_no_specfile_change_witness :
  or_empty_dict
    (get_pr_files_diff (Sample.merged_push "alice" Sample.no_diff) 7 5 5) = []
  /\ fst (contains_specfile_change
            (Sample.merged_push "alice" Sample.no_diff) Sample.empty_world)
     = Ok false
  /\ fst (@pre_check Sample.runtime Sample.imports
            (Sample.merged_push "alice" Sample.no_diff) Sample.empty_world)
     = Ok false.
Proof.
  apply (@missing_diff_is_no_specfile_change Sample.runtime Sample.imports
           (Sample.merged_push "alice" Sample.no_diff) Sample.empty_world
           {| id := 7; status := PR_merged; author := "alice" |});
    reflexivity.
Defined.

Lemma push_mismatch_is_logged_not_reported_witness :
  exists entries offender msg,
    @pre_check Sample.runtime Sample.imports
      Sample.direct_push Sample.empty_world
    = (Ok false,
       {| log := log Sample.empty_world ++ entries ++ [(INFO, msg)];
          issue_reports := issue_reports Sample.empty_world |})
    /\ offender = "mallory"
    /\ msg
       = "Push event main done by mallory that is not allowed in project configuration: ['alice']."
    /\ str_contains msg offender = true.
Proof.
  destruct (@push_mismatch_is_logged_not_reported Sample.runtime
              Sample.imports Sample.direct_push Sample.empty_world
              (VStr "mallory"))
    as [entries [offender [msg [E [Ho [Hm Hc]]]]]]; try reflexivity.
  - left. split; reflexivity.
  - exists entries, offender, msg.
    split; [exact E|]. split; [exact Ho|].
    split; [rewrite Hm, Ho; reflexivity | exact Hc].
Defined.

(** C5 (as the spec has it) fails: "mallory" pushes to "main" and is not
    an allowed committer; the gate rejects the push and the issue
    repository receives nothing. *)
Lemma rejected_push_is_not_reported :
  let c := Sample.direct_push in
  let r := @pre_check Sample.runtime Sample.imports c Sample.empty_world in
  event_type (data c) = PushPagureEvent__name__
  /\ dict_get (event_dict (data c)) "committer" = Some (VStr "mallory")
  /\ value_in_strs (VStr "mallory") (allowed_committers (job_config c))
     = false
  /\ fst r = Ok false
  /\ issue_reports (snd r) = issue_reports Sample.empty_world.
Proof. repeat split. Qed.

End PermissionOnDistgitExamples.

(** ** ValidInformationForPullFromUpstream *)

Section ValidInformationFacts.
Import Py Distgit Distgit.ValidInformationForPullFromUpstream.
Context `{RT : Runtime}.

Ltac run_pre_check :=
  unfold pre_check, bind, logger, report_in_issue_repository, ret;
  cbn [valid msg_to_report issue_title fst snd log issue_reports
       truthy_str str_of_opt negb].

(** C2 (as the code has it): a run reports at most one message, and it
    is the message of the last failing condition in evaluation order;
    a run without a failing condition reports nothing. *)
Theorem reported_message_is_last_failing (c : Checker) (w : World) :
  exists added,
    issue_reports (snd (pre_check c w)) = (issue_reports w ++ added)%list
    /\ map message added
       = match rev (failing_messages c) with
         | [] => []
         | m :: _ => [m]
         end.
Proof.
  unfold failing_messages, conditions.
  run_pre_check.
  destruct (negb (truthy_str (upstream_project_url (package_config c))));
  destruct (negb (truthy (dict_get_value (event_dict (data c)) "repo_name")
                  && truthy (dict_get_value (event_dict (data c))
                               "repo_namespace")));
  destruct (str_in (event_type (data c)) [NewHotnessUpdateEvent__name__]
            && negb (truthy_str (tag_name (data c))));
  destruct (str_in (event_type (data c))
              [PullRequestCommentPagureEvent__name__]);
  destruct (is_packager c (actor (data c)));
  cbn;
  first [ eexists [_]; split; reflexivity
        | exists []; split; [now rewrite app_nil_r | reflexivity] ].
Qed.

(** C9: when a retrigger comment on a pull request comes from someone
    who is not a packager and the other conditions hold, the run is
    invalid and its one report has the title
    "Re-triggering pull-from-upstream " and nothing more: the words
    "through a comment in dist-git PR failed" are not part of it. *)
Theorem not_packager_title_is_truncated (c : Checker) (w : World) :
  event_type (data c) = PullRequestCommentPagureEvent__name__ ->
  is_packager c (actor (data c)) = false ->
  truthy_str (upstream_project_url (package_config c)) = true ->
  truthy (dict_get_value (event_dict (data c)) "repo_name") = true ->
  truthy (dict_get_value (event_dict (data c)) "repo_namespace") = true ->
  exists r,
    fst (pre_check c w) = Ok false
    /\ issue_reports (snd (pre_check c w)) = (issue_reports w ++ [r])%list
    /\ title r = "Re-triggering pull-from-upstream "
    /\ str_contains (title r) "through a comment in dist-git PR failed"
       = false
    /\ message r = msg_not_packager c.
Proof.
  intros Hev Hnp Hurl Hname Hns.
  run_pre_check.
  rewrite Hev, Hnp, Hurl, Hname, Hns.
  cbn. eexists. repeat split.
Qed.

End ValidInformationFacts.

Section ValidInformationExamples.
Import Py Distgit Distgit.ValidInformationForPullFromUpstream.

(** C2 (as the spec has it) fails: with no upstream URL configured and
    no repository name in the event two conditions fail; the first sets
    the message about the missing URL, and the report carries the
    message of the second. *)
Lemma later_failure_overrides_first :
  let c := Sample.update_without_url in
  let w' := snd (@pre_check Sample.runtime c Sample.empty_world) in
  1 < length (failing_messages c)
  /\ hd_error (failing_messages c) = Some msg_no_upstream_url
  /\ reported_messages Sample.empty_world w' = [msg_no_repo c]
  /\ msg_no_repo c <> msg_no_upstream_url.
Proof.
  cbv zeta. split; [cbn; lia|]. split; [reflexivity|].
  split; [reflexivity|]. discriminate.
Qed.

Lemma not_packager_title_is_truncated_witness :
  exists r,
    fst (@pre_check Sample.runtime Sample.comment_by_stranger
           Sample.empty_world) = Ok false
    /\ issue_reports
         (snd (@pre_check Sample.runtime Sample.comment_by_stranger
                 Sample.empty_world))
       = (issue_reports Sample.empty_world ++ [r])%list
    /\ title r = "Re-triggering pull-from-upstream "
    /\ str_contains (title r) "through a comment in dist-git PR failed"
       = false
    /\ message r = msg_not_packager Sample.comment_by_stranger.
Proof.
  apply (@not_packager_title_is_truncated Sample.runtime
           Sample.comment_by_stranger Sample.empty_world); reflexivity.
Defined.

End ValidInformationExamples.

(** ** IsUpstreamTagMatchingConfig *)

Section TagFilterFacts.
Import Py Distgit Distgit.IsUpstreamTagMatchingConfig.
Context `{RT : Runtime}.

Lemma truthy_nonempty (s : string) : s <> EmptyString -> truthy (VStr s) = true.
Proof.
  intros Hs. cbn. destruct (String.eqb s EmptyString) eqn:E; [|reflexivity].
  apply String.eqb_eq in E. contradiction.
Qed.

(** C7 (as the code has it): an event without a tag passes the tag
    filter.  For an event with tag [t]: when an exclude pattern is
    configured and [re.match] finds it at the beginning of [t], the
    filter never accepts, whether the include pattern matches or not: it
    rejects, unless an include pattern is configured that does not
    compile, in which case [re.match] raises [re.error]; and when an
    include pattern is configured, the filter accepts only if [re.match]
    finds it at the beginning of [t]. *)
Theorem tag_filter (c : Checker) (w : World) :
  (truthy_str (tag_name (data c)) = false -> fst (pre_check c w) = Ok true)
  /\ (forall t,
        tag_name (data c) = Some t -> t <> EmptyString ->
        (forall p,
           upstream_tag_exclude (job_config c) = Some p ->
           p <> EmptyString ->
           re_match p t = Some true ->
           fst (pre_check c w)
           = match upstream_tag_include (job_config c) with
             | Some q =>
                 if truthy (VStr q) then
                   match re_match q t with
                   | Some _ => Ok false
                   | None => Raise ReError
                   end
                 else Ok false
             | None => Ok false
             end)
        /\ (forall p,
              upstream_tag_include (job_config c) = Some p ->
              p <> EmptyString ->
              fst (pre_check c w) = Ok true ->
              re_match p t = Some true)).
Proof.
  split.
  - intros Hno. unfold pre_check.
    destruct (tag_name (data c)) as [t|]; [|reflexivity].
    cbn in Hno. cbn [truthy]. rewrite Hno. reflexivity.
  - intros t Ht Hne.
    unfold pre_check. rewrite Ht, (truthy_nonempty t Hne). cbn [negb].
    split.
    + intros p Hex Hp Hm. rewrite Hex, (truthy_nonempty p Hp).
      unfold re_match_call. rewrite Hm.
      unfold bind, logger, ret, raise.
      destruct (upstream_tag_include (job_config c)) as [q|]; cbn;
        [|reflexivity].
      destruct (negb (String.eqb q EmptyString)); cbn; [|reflexivity].
      destruct (re_match q t) as [[|]|]; reflexivity.
    + intros p Hin Hp. rewrite Hin, (truthy_nonempty p Hp).
      unfold re_match_call, bind, logger, ret, raise.
      destruct (re_match p t) as [[|]|]; cbn;
        [intros _; reflexivity | discriminate | discriminate].
Qed.

End TagFilterFacts.

Section TagFilterExamples.
Import Py Distgit Distgit.IsUpstreamTagMatchingConfig.

Lemma tag_filter_witness :
  fst (@pre_check Sample.runtime (Sample.tagged_update None)
         Sample.empty_world) = Ok true
  /\ fst (@pre_check Sample.runtime (Sample.tagged_update (Some "v0.9"))
            Sample.empty_world) = Ok false
  /\ fst (@pre_check Sample.runtime Sample.update_with_broken_include
            Sample.empty_world) = Raise ReError
  /\ @re_match Sample.runtime "v" "v1.2" = Some true.
Proof.
  split; [|split; [|split]].
  - apply (@tag_filter Sample.runtime (Sample.tagged_update None)
             Sample.empty_world). reflexivity.
  - apply (proj1 (proj2 (@tag_filter Sample.runtime
                           (Sample.tagged_update (Some "v0.9"))
                           Sample.empty_world)
                    "v0.9" eq_refl ltac:(discriminate)) "v0");
      try reflexivity; discriminate.
  - apply (proj1 (proj2 (@tag_filter Sample.runtime
                           Sample.update_with_broken_include
                           Sample.empty_world)
                    "v0.9" eq_refl ltac:(discriminate)) "v0");
      try reflexivity; discriminate.
  - apply (proj2 (proj2 (@tag_filter Sample.runtime
                           (Sample.tagged_update (Some "v1.2"))
                           Sample.empty_world)
                    "v1.2" eq_refl ltac:(discriminate)) "v");
      try reflexivity; discriminate.
Defined.

(** C7 (as the spec has it) fails: the tag "v0.9" matches the
    configured exclude pattern "v0", and with the include pattern "*",
    which is not a regular expression, the filter does not reject: the
    first [re.match] raises [re.error]. *)
Lemma broken_include_pattern_raises :
  let c := Sample.update_with_broken_include in
  tag_name (data c) = Some "v0.9"
  /\ upstream_tag_exclude (job_config c) = Some "v0"
  /\ @re_match Sample.runtime "v0" "v0.9" = Some true
  /\ upstream_tag_include (job_config c) = Some "*"
  /\ @re_match Sample.runtime "*" "v0.9" = None
  /\ @pre_check Sample.runtime c Sample.empty_world
     = (Raise ReError, Sample.empty_world)
  /\ fst (@pre_check Sample.runtime c Sample.empty_world) <> Ok false.
Proof. cbv zeta. repeat split. discriminate. Qed.

End TagFilterExamples.

(** ** TestingFarmJobHelper *)

Section TestingFarmFacts.
Import Py TestingFarm.
Context `{RT : Runtime}.

Lemma map_M_subscript_state (k : string) (items : list value) (w : World) :
  snd (map_M (fun c => subscript (W := World) c k) items w) = w.
Proof.
  induction items as [|c items IH]; [reflexivity|].
  cbn [map_M]. unfold bind.
  destruct c; try reflexivity. cbn [subscript]. unfold getitem.
  destruct (dict_get _ k); [|reflexivity]. cbn [ret].
  destruct (map_M _ items w) as [[ys|e] w']; cbn in IH; subst w';
    reflexivity.
Qed.

Lemma get_compose_arch_frame (h : TestingFarmJobHelper) (chroot : string)
    (w : World) :
  quiet w (snd (get_compose_arch h chroot w))
  /\ (forall x, fst (get_compose_arch h chroot w) = Ok x ->
        http_log (snd (get_compose_arch h chroot w))
        = (http_log w ++ [composes_request h])%list).
Proof.
  unfold get_compose_arch, quiet.
  destruct (rsplit1 "-" chroot) as [[compose arch]|];
    [|cbn; split; [tauto | discriminate]].
  unfold send_testing_farm_request, try_except, get_raw_request, bind,
    session_call.
  change {| method := "GET"; url := tft_api_url h ++ "composes";
            params := None; json_data := None |} with (composes_request h).
  destruct (session_request h (length (http_log w)) (composes_request h))
    as [raw|]; cbn; [|split; [tauto | discriminate]].
  destruct (raw_json raw) as [j|]; cbn.
  - destruct (raw_status_code raw =? 200)%Z; cbn; [|tauto].
    destruct j; cbn; try (split; [tauto | discriminate]).
    unfold getitem. destruct (dict_get _ "composes") as [cs|]; cbn;
      [|split; [tauto | discriminate]].
    destruct cs; cbn; try (split; [tauto | discriminate]).
    all: match goal with
         | |- context [map_M ?f ?l ?w0] =>
             pose proof (map_M_subscript_state "name" l w0) as Hs;
             destruct (map_M f l w0) as [[ys|e] w1]; cbn in Hs; subst w1;
             cbn; [|split; [tauto | discriminate]]
         end.
    all: destruct (existsb _ ys); cbn; tauto.
  - destruct (raw_status_code raw =? 200)%Z; cbn; [|tauto].
    split; [tauto | discriminate].
Qed.

Lemma _payload_frame (h : TestingFarmJobHelper) (build_id : Z)
    (chroot : string) (w w1 : World) (payload : value) :
  _payload h build_id chroot w = (Ok payload, w1) ->
  quiet w w1 /\ http_log w1 = (http_log w ++ [composes_request h])%list.
Proof.
  unfold _payload, bind. intros E.
  destruct (get_compose_arch_frame h chroot w) as [Hq Hlog].
  destruct (get_compose_arch h chroot w) as [[[compose arch]|e] w0];
    [|discriminate].
  cbn in E. injection E as _ <-. cbn in Hq, Hlog.
  split; [exact Hq | now apply (Hlog (compose, arch))].
Qed.

Lemma dict_get_mem (d : dict) (k : string) (v : value) :
  dict_get d k = Some v -> dict_mem d k = true.
Proof.
  unfold dict_mem, dict_keys.
  induction d as [|[k' v'] d IH]; cbn; [discriminate|].
  rewrite (String.eqb_sym k k').
  destruct (String.eqb k' k); [reflexivity|]. exact IH.
Qed.

Lemma dict_get_truthy (d : dict) (k : string) (v : value) :
  dict_get d k = Some v -> truthy (VDict d) = true.
Proof. destruct d; [discriminate | reflexivity]. Qed.

(** Runs [run_testing_farm] for a declared and built target up to the
    answer of the service to the posted request. *)
Ltac run_to_answer h payload Ht Hb Hp Hs :=
  unfold before_payload, bind, report_status_to_test_for_chroot, logger
    in Hp;
  cbn [fst snd log sentry statuses http_log test_runs copr_builds] in Hp;
  unfold run_testing_farm; rewrite Ht, Hb; cbn [negb];
  unfold bind at 1; unfold report_status_to_test_for_chroot at 1;
  cbv beta iota; unfold bind at 1; unfold logger at 1;
  cbv beta iota;
  cbn [fst snd log sentry statuses http_log test_runs copr_builds];
  unfold bind at 1; rewrite Hp;
  unfold bind at 1; unfold logger at 1; cbv beta iota;
  unfold bind at 1;
  unfold send_testing_farm_request, try_except, get_raw_request;
  cbn [truthy negb String.eqb Ascii.eqb Bool.eqb];
  unfold bind at 1 2; unfold session_call;
  cbn [fst snd log sentry statuses http_log test_runs copr_builds];
  change {| method := "POST"; url := tft_api_url h ++ "requests";
            params := None; json_data := Some payload |}
    with (post_request h payload);
  rewrite Hs.

(** C3: when the service answers the posted request with a status other
    than 200 and a JSON object that has a "message" string, the request
    was sent once, a failure status with exactly that message as its
    description is reported for the target, no test run is stored, and
    the result is a failure carrying the message. *)
Theorem business_failure_reports_message
    (h : TestingFarmJobHelper) (build_id : Z) (chroot : string)
    (w w1 : World) (payload : value) (raw : RawResponse)
    (d : dict) (m : string) :
  str_in chroot (tests_targets h) = true ->
  str_in chroot (build_targets h) = true ->
  _payload h build_id chroot (before_payload chroot w) = (Ok payload, w1) ->
  session_request h (length (http_log w1)) (post_request h payload)
  = Response raw ->
  raw_status_code raw <> 200%Z ->
  raw_json raw = Some (VDict d) ->
  dict_get d "message" = Some (VStr m) ->
  exists w',
    run_testing_farm h build_id chroot w
    = (Ok {| success := false; details := VDict [("msg", VStr m)] |}, w')
    /\ http_log w'
       = (http_log w ++ [composes_request h; post_request h payload])%list
    /\ statuses w'
       = (statuses w
          ++ [ {| state := CS_pending;
                  description :=
                    VStr "Build succeeded. Submitting the tests ...";
                  chroot_of := chroot; url_of := None |};
               {| state := CS_failure; description := VStr m;
                  chroot_of := chroot; url_of := None |} ])%list
    /\ test_runs w' = test_runs w.
Proof.
  intros Ht Hb Hp Hs Hcode Hjson Hmsg.
  destruct (_payload_frame _ _ _ _ _ _ Hp) as [[_ [Hst [Htr _]]] Hlog].
  cbn in Hst, Htr, Hlog.
  apply Z.eqb_neq in Hcode.
  run_to_answer h payload Ht Hb Hp Hs.
  rewrite Hjson. unfold bind, logger, ret, truthy_response,
    report_status_to_test_for_chroot, contains, subscript, getitem.
  cbn [fst snd log sentry statuses http_log test_runs copr_builds
       status_code json negb].
  rewrite Hcode. cbn [negb].
  rewrite (dict_get_truthy _ _ _ Hmsg), (dict_get_mem _ _ _ Hmsg), Hmsg.
  cbn [fst snd log sentry statuses http_log test_runs copr_builds].
  eexists. split; [reflexivity|].
  cbn [fst snd log sentry statuses http_log test_runs copr_builds].
  rewrite Hlog, Hst, Htr, <- !app_assoc. repeat split.
Qed.

(** C4 (as the code has it): when the service answers the posted request
    with status 200, the one status the code takes for a success, and a
    JSON object that has an "id", one test run is stored, with that id
    as its pipeline id, status new, the commit of the event, the
    submitted target, no web URL and the helper's [db_trigger] as its
    trigger model (the row does not depend on the build); a pending
    status is reported whose URL ends in the id; and the result is a
    success. *)
Theorem accepted_submission_creates_one_test_run
    (h : TestingFarmJobHelper) (build_id : Z) (chroot : string)
    (w w1 : World) (payload : value) (raw : RawResponse)
    (d : dict) (pid : value) :
  str_in chroot (tests_targets h) = true ->
  str_in chroot (build_targets h) = true ->
  _payload h build_id chroot (before_payload chroot w) = (Ok payload, w1) ->
  session_request h (length (http_log w1)) (post_request h payload)
  = Response raw ->
  raw_status_code raw = 200%Z ->
  raw_json raw = Some (VDict d) ->
  dict_get d "id" = Some pid ->
  exists w' u,
    run_testing_farm h build_id chroot w
    = (Ok {| success := true; details := VDict [] |}, w')
    /\ test_runs w'
       = (test_runs w
          ++ [ {| pipeline_id := pid;
                  commit_sha_of := commit_sha h;
                  status := TFR_new;
                  target := chroot;
                  web_url := None;
                  trigger_model := db_trigger h |} ])%list
    /\ statuses w'
       = (statuses w
          ++ [ {| state := CS_pending;
                  description :=
                    VStr "Build succeeded. Submitting the tests ...";
                  chroot_of := chroot; url_of := None |};
               {| state := CS_pending;
                  description := VStr "Tests have been submitted ...";
                  chroot_of := chroot; url_of := Some u |} ])%list
    /\ u = tft_api_url h ++ "requests/" ++ py_str pid
    /\ str_contains u (py_str pid) = true
    /\ http_log w'
       = (http_log w ++ [composes_request h; post_request h payload])%list.
Proof.
  intros Ht Hb Hp Hs Hcode Hjson Hid.
  destruct (_payload_frame _ _ _ _ _ _ Hp) as [[_ [Hst [Htr _]]] Hlog].
  cbn in Hst, Htr, Hlog.
  run_to_answer h payload Ht Hb Hp Hs.
  rewrite Hjson. unfold bind, logger, ret, truthy_response,
    report_status_to_test_for_chroot, TFTTestRunModel_create, subscript,
    getitem.
  cbn [fst snd log sentry statuses http_log test_runs copr_builds
       status_code json negb].
  rewrite Hcode. cbn [Z.eqb Pos.eqb negb]. rewrite Hid.
  cbn [fst snd log sentry statuses http_log test_runs copr_builds].
  eexists _, _. split; [reflexivity|].
  cbn [fst snd log sentry statuses http_log test_runs copr_builds].
  rewrite Hlog, Hst, Htr, <- !app_assoc.
  repeat split.
  apply str_contains_app_l, str_contains_app_l, str_contains_refl.
Qed.

Lemma _payload_quiet (h : TestingFarmJobHelper) (build_id : Z)
    (chroot : string) (w : World) :
  quiet w (snd (_payload h build_id chroot w)).
Proof.
  unfold _payload, bind.
  destruct (get_compose_arch_frame h chroot w) as [Hq _].
  destruct (get_compose_arch h chroot w) as [[[compose arch]|e] w0];
    exact Hq.
Qed.

Lemma run_testing_farm_adds_declared (h : TestingFarmJobHelper)
    (build_id : Z) (chroot : string) :
  adds_declared h (run_testing_farm h build_id chroot).
Proof.
  intros w. unfold run_testing_farm.
  assert (Hnone : forall w' : World, test_runs w' = test_runs w ->
            exists added,
              test_runs w' = (test_runs w ++ added)%list
              /\ Forall (fun r => In (target r) (tests_targets h)) added).
  { intros w' E. exists []. rewrite app_nil_r. split; [exact E | constructor]. }
  destruct (str_in chroot (tests_targets h)) eqn:Ht; cbn [negb];
    [|apply Hnone; reflexivity].
  destruct (str_in chroot (build_targets h)) eqn:Hb; cbn [negb];
    [|apply Hnone; reflexivity].
  unfold bind at 1. unfold report_status_to_test_for_chroot at 1.
  cbv beta iota. unfold bind at 1. unfold logger at 1. cbv beta iota.
  unfold bind at 1.
  match goal with
  | |- context [_payload h build_id chroot ?w0] =>
      pose proof (_payload_quiet h build_id chroot w0) as [_ [_ [Hq _]]];
      destruct (_payload h build_id chroot w0) as [[payload|e] w1]
  end; cbn in Hq; [|apply Hnone; exact Hq].
  unfold bind at 1. unfold logger at 1. cbv beta iota.
  unfold bind at 1.
  unfold send_testing_farm_request, try_except, get_raw_request.
  cbn [truthy negb String.eqb Ascii.eqb Bool.eqb].
  unfold bind at 1 2. unfold session_call.
  cbn [fst snd log sentry statuses http_log test_runs copr_builds].
  destruct (session_request h _ _) as [raw|];
    [|apply Hnone; exact Hq].
  unfold contains, subscript, getitem, bind, logger, ret, raise,
    truthy_response, report_status_to_test_for_chroot,
    TFTTestRunModel_create.
  destruct (raw_json raw) as [j|];
    cbn [fst snd log sentry statuses http_log test_runs copr_builds
         status_code json negb truthy];
    destruct (raw_status_code raw =? 200)%Z; cbn [negb].
  - destruct j as [| | | | |dd]; try (apply Hnone; exact Hq).
    destruct (dict_get dd "id"); [|apply Hnone; exact Hq].
    cbn [fst snd test_runs]. rewrite Hq.
    eexists [_]. split; [reflexivity|].
    constructor; [|constructor]. cbn [target]. now apply str_in_iff.
  - destruct j as [|b|z|s0|l|dd];
      cbn [truthy fst snd log sentry statuses http_log test_runs
           copr_builds];
      repeat match goal with
             | |- context [if ?b then _ else _] => destruct b
             | |- context [match dict_get ?d ?k with _ => _ end] =>
                 destruct (dict_get d k)
             | |- context [match ?l with [] => _ | _ :: _ => _ end] =>
                 destruct l
             end;
      cbn [fst snd log sentry statuses http_log test_runs copr_builds];
      apply Hnone; exact Hq.
  - apply Hnone; exact Hq.
  - apply Hnone; exact Hq.
Qed.

Lemma for_each_adds_declared (h : TestingFarmJobHelper) (build_id : Z)
    (targets : list string) :
  forall failed : dict,
    adds_declared h
      (for_each targets failed
         (fun failed chroot =>
            result <- run_testing_farm h build_id chroot ;;
            if negb (success result)
            then ret (dict_set failed chroot (details result))
            else ret failed)).
Proof.
  induction targets as [|chroot targets IH]; intros failed w.
  - exists []. cbn. rewrite app_nil_r. split; [reflexivity | constructor].
  - cbn [for_each]. unfold bind at 1. unfold bind at 1.
    destruct (run_testing_farm_adds_declared h build_id chroot w)
      as [added1 [E1 F1]].
    destruct (run_testing_farm h build_id chroot w) as [[r|e] w1];
      cbn [snd] in E1.
    + destruct (negb (success r)); cbn [ret].
      * destruct (IH (dict_set failed chroot (details r)) w1)
          as [added2 [E2 F2]].
        exists (added1 ++ added2)%list. rewrite E2, E1, app_assoc.
        split; [reflexivity | now apply Forall_app].
      * destruct (IH failed w1) as [added2 [E2 F2]].
        exists (added1 ++ added2)%list. rewrite E2, E1, app_assoc.
        split; [reflexivity | now apply Forall_app].
    + exists added1. split; assumption.
Qed.

Lemma run_testing_farm_on_all_adds_declared (h : TestingFarmJobHelper) :
  adds_declared h (run_testing_farm_on_all h).
Proof.
  intros w. unfold run_testing_farm_on_all.
  unfold bind at 1. unfold get_all_by_owner_and_project.
  destruct (filter _ (copr_builds w)) as [|latest builds].
  - exists []. cbn. rewrite app_nil_r. split; [reflexivity | constructor].
  - destruct (py_int (build_id latest)) as [n|].
    + unfold bind at 1.
      destruct (for_each_adds_declared h n (tests_targets h) [] w)
        as [added [E F]].
      destruct (for_each _ _ _ w) as [[failed|e] w1]; cbn [snd] in E.
      * exists added. split; [|exact F].
        destruct (negb (truthy (VDict failed))); exact E.
      * exists added. split; assumption.
    + exists []. cbn. rewrite app_nil_r. split; [reflexivity | constructor].
Qed.

(** C8: a submission for a target that is not among the declared test
    targets returns a failure and sends no request; and every test run
    that a single submission or the fan-out stores has a target among
    the declared test targets. *)
Theorem undeclared_target_is_never_submitted (h : TestingFarmJobHelper) :
  (forall build_id chroot w,
     str_in chroot (tests_targets h) = false ->
     exists msg w',
       run_testing_farm h build_id chroot w
       = (Ok {| success := false; details := VDict [("msg", VStr msg)] |},
          w')
       /\ http_log w' = http_log w
       /\ test_runs w' = test_runs w)
  /\ (forall build_id chroot,
        adds_declared h (run_testing_farm h build_id chroot))
  /\ adds_declared h (run_testing_farm_on_all h).
Proof.
  split; [|split].
  - intros build_id chroot w Ht. unfold run_testing_farm. rewrite Ht.
    cbn [negb]. eexists _, _. split; [reflexivity|]. split; reflexivity.
  - apply run_testing_farm_adds_declared.
  - apply run_testing_farm_on_all_adds_declared.
Qed.

(** C1 (what the code does): when there is a Copr build and the fan-out
    returns a failure, the details of its result are [None], the value
    of the [update] call: no failing target is a key of them. *)
Theorem fan_out_failure_has_no_details
    (h : TestingFarmJobHelper) (w w' : World) (r : TaskResults) :
  fst (get_all_by_owner_and_project (job_owner h) (job_project h) w)
  <> Ok [] ->
  run_testing_farm_on_all h w = (Ok r, w') ->
  success r = false ->
  details r = VNone.
Proof.
  unfold run_testing_farm_on_all, get_all_by_owner_and_project.
  unfold bind at 1. cbn [fst].
  destruct (filter _ (copr_builds w)) as [|latest builds];
    [intros Hb; now contradiction Hb|].
  intros _.
  destruct (py_int (build_id latest)) as [n|]; [|discriminate].
  unfold bind at 1.
  destruct (for_each _ _ _ w) as [[failed|e] w1]; [|discriminate].
  destruct failed as [|kv failed]; cbn [truthy negb ret].
  - intros E. injection E as <- _. discriminate.
  - intros E. injection E as <- _. reflexivity.
Qed.

End TestingFarmFacts.

Section TestingFarmExamples.
Import Py TestingFarm.

Lemma business_failure_reports_message_witness :
  let h := Sample.helper ["fedora-33-x86_64"] ["fedora-33-x86_64"]
             Sample.bad_env_response in
  exists payload w',
    @run_testing_farm Sample.runtime h 1044215 "fedora-33-x86_64"
      Sample.farm_world
    = (Ok {| success := false;
             details := VDict [("msg", VStr "bad env")] |}, w')
    /\ http_log w'
       = (http_log Sample.farm_world
          ++ [composes_request h; post_request h payload])%list
    /\ statuses w'
       = (statuses Sample.farm_world
          ++ [ {| state := CS_pending;
                  description :=
                    VStr "Build succeeded. Submitting the tests ...";
                  chroot_of := "fedora-33-x86_64"; url_of := None |};
               {| state := CS_failure; description := VStr "bad env";
                  chroot_of := "fedora-33-x86_64"; url_of := None |} ])%list
    /\ test_runs w' = test_runs Sample.farm_world.
Proof.
  cbv zeta. eexists.
  eapply (@business_failure_reports_message Sample.runtime
            (Sample.helper ["fedora-33-x86_64"] ["fedora-33-x86_64"]
               Sample.bad_env_response)
            1044215 "fedora-33-x86_64" Sample.farm_world).
  - reflexivity.
  - reflexivity.
  - vm_compute. reflexivity.
  - reflexivity.
  - vm_compute. discriminate.
  - reflexivity.
  - reflexivity.
Defined.

Lemma accepted_submission_creates_one_test_run_witness :
  let h := Sample.helper ["fedora-33-x86_64"] ["fedora-33-x86_64"]
             Sample.accepted_response in
  exists payload w' u,
    @run_testing_farm Sample.runtime h 1044215 "fedora-33-x86_64"
      Sample.farm_world
    = (Ok {| success := true; details := VDict [] |}, w')
    /\ test_runs w'
       = (test_runs Sample.farm_world
          ++ [ {| pipeline_id := VStr "abc-123";
                  commit_sha_of := commit_sha h;
                  status := TFR_new;
                  target := "fedora-33-x86_64";
                  web_url := None;
                  trigger_model := db_trigger h |} ])%list
    /\ statuses w'
       = (statuses Sample.farm_world
          ++ [ {| state := CS_pending;
                  description :=
                    VStr "Build succeeded. Submitting the tests ...";
                  chroot_of := "fedora-33-x86_64"; url_of := None |};
               {| state := CS_pending;
                  description := VStr "Tests have been submitted ...";
                  chroot_of := "fedora-33-x86_64";
                  url_of := Some u |} ])%list
    /\ u = tft_api_url h ++ "requests/"
           ++ @py_str Sample.runtime (VStr "abc-123")
    /\ str_contains u (@py_str Sample.runtime (VStr "abc-123")) = true
    /\ http_log w'
       = (http_log Sample.farm_world
          ++ [composes_request h; post_request h payload])%list.
Proof.
  cbv zeta. eexists.
  eapply (@accepted_submission_creates_one_test_run Sample.runtime
            (Sample.helper ["fedora-33-x86_64"] ["fedora-33-x86_64"]
               Sample.accepted_response)
            1044215 "fedora-33-x86_64" Sample.farm_world).
  - reflexivity.
  - reflexivity.
  - vm_compute. reflexivity.
  - reflexivity.
  - reflexivity.
  - reflexivity.
  - reflexivity.
Defined.

Lemma undeclared_target_is_never_submitted_witness :
  let h := Sample.helper ["fedora-33-x86_64"] ["fedora-33-x86_64"]
             Sample.accepted_response in
  exists msg w',
    @run_testing_farm Sample.runtime h 1044215 "centos-8-x86_64"
      Sample.farm_world
    = (Ok {| success := false; details := VDict [("msg", VStr msg)] |}, w')
    /\ http_log w' = http_log Sample.farm_world
    /\ test_runs w' = test_runs Sample.farm_world.
Proof.
  cbv zeta.
  apply (proj1 (@undeclared_target_is_never_submitted Sample.runtime
                  (Sample.helper ["fedora-33-x86_64"] ["fedora-33-x86_64"]
                     Sample.accepted_response))).
  reflexivity.
Defined.

(** Two test targets, one of them without a build: the submission for
    "fedora-rawhide-x86_64" fails with its own details, and the fan-out
    returns a failure whose details are [None]. *)
Lemma fan_out_failure_has_no_details_witness :
  let h := Sample.helper ["fedora-33-x86_64"; "fedora-rawhide-x86_64"]
             ["fedora-33-x86_64"] Sample.accepted_response in
  fst (@run_testing_farm Sample.runtime h 1044215 "fedora-rawhide-x86_64"
         Sample.farm_world)
  = Ok {| success := false;
          details :=
            VDict [("msg",
                    VStr ("Target 'fedora-rawhide-x86_64' not defined for "
                          ++ "build. Cannot run tests without build."))] |}
  /\ exists r w',
       @run_testing_farm_on_all Sample.runtime h Sample.farm_world
       = (Ok r, w')
       /\ success r = false
       /\ details r = VNone.
Proof.
  cbv zeta. split; [reflexivity|].
  eexists _, _. split; [vm_compute; reflexivity|].
  split; [reflexivity|].
  eapply (@fan_out_failure_has_no_details Sample.runtime
            (Sample.helper ["fedora-33-x86_64"; "fedora-rawhide-x86_64"]
               ["fedora-33-x86_64"] Sample.accepted_response)
            Sample.farm_world).
  - vm_compute. discriminate.
  - vm_compute. reflexivity.
  - reflexivity.
Defined.

(** C4 (as the spec has it) fails.  An answer "201 Created" with an id
    is a success of HTTP, and the submission handles it as a failure:
    it reports the reason phrase and stores no test run.  And the row
    an accepted submission stores is the same for build 1 and for
    build 2: its trigger model is the helper's [db_trigger], it holds
    no link to the build. *)
Lemma created_answer_is_not_a_success :
  let target := "fedora-33-x86_64" in
  let h := Sample.helper [target] [target] Sample.created_response in
  let r := @run_testing_farm Sample.runtime h 1044215 target
             Sample.farm_world in
  let h200 := Sample.helper [target] [target] Sample.accepted_response in
  let stored build :=
    test_runs (snd (@run_testing_farm Sample.runtime h200 build target
                      Sample.farm_world)) in
  raw_ok Sample.created_response = true
  /\ (200 <= raw_status_code Sample.created_response < 300)%Z
  /\ raw_json Sample.created_response
     = Some (VDict [("id", VStr "abc-123")])
  /\ fst r
     = Ok {| success := false;
             details :=
               VDict [("msg", VStr "Failed to submit tests: Created")] |}
  /\ test_runs (snd r) = []
  /\ stored 1%Z = stored 2%Z
  /\ stored 1%Z = [stored_run h200 target (VStr "abc-123")].
Proof. cbv zeta. repeat split; try reflexivity; vm_compute; discriminate. Qed.

End TestingFarmExamples.

(** ** The helpers on concrete inputs *)

Section Examples.
Import Py TestingFarm.

Example rsplit1_fedora :
  rsplit1 "-" "fedora-33-x86_64" = Some ("fedora-33", "x86_64").
Proof. reflexivity. Qed.

Example rsplit1_no_separator : rsplit1 "-" "rawhide" = None.
Proof. reflexivity. Qed.

Example title_fedora : title "fedora-33" = "Fedora-33".
Proof. reflexivity. Qed.

Example endswith_spec : endswith "packit.spec" ".spec" = true.
Proof. reflexivity. Qed.

Example endswith_spec_in : endswith "packit.spec.in" ".spec" = false.
Proof. reflexivity. Qed.

Example str_of_Z_negative : str_of_Z (-12) = "-12".
Proof. reflexivity. Qed.

Example tft_api_url_gets_slash :
  tft_api_url (Sample.helper [] [] Sample.accepted_response)
  = "https://api.dev.testing-farm.io/v0.1/".
Proof. reflexivity. Qed.

Example get_compose_arch_fedora :
  fst (@get_compose_arch Sample.runtime
         (Sample.helper [] [] Sample.accepted_response)
         "fedora-33-x86_64" Sample.farm_world)
  = Ok ("Fedora-33", "x86_64").
Proof. reflexivity. Qed.

Example dict_update_returns_none :
  dict_update [("msg", VStr "m")] [("fedora-33-x86_64", VDict [])]
  = ([("msg", VStr "m"); ("fedora-33-x86_64", VDict [])], VNone).
Proof. reflexivity. Qed.

End Examples.

(** ** PermissionOnDistgit: the other paths *)

Section PermissionOnDistgitPaths.
Import Py Distgit Distgit.PermissionOnDistgit.
Context `{RT : Runtime} `{IM : Imports}.

Lemma str_in_singleton (x y : string) : str_in x [y] = true -> x = y.
Proof.
  unfold str_in. cbn. rewrite orb_false_r. apply String.eqb_eq.
Qed.

Lemma value_in_strs_iff (v : value) (l : list string) :
  value_in_strs v l = true <-> exists s, v = VStr s /\ In s l.
Proof.
  unfold value_in_strs. rewrite existsb_exists. split.
  - intros [s [Hin E]]. destruct v; try discriminate.
    cbn in E. apply String.eqb_eq in E. subst. eauto.
  - intros [s [-> Hin]]. exists s. split; [exact Hin|].
    cbn. apply String.eqb_refl.
Qed.

Ltac enter_push Hev Hbr :=
  unfold pre_check; rewrite Hev; cbn [str_in existsb];
  change (String.eqb PushPagureEvent__name__ PushPagureEvent__name__)
    with true;
  cbn [orb]; rewrite Hbr; cbn [negb].

(** X1: a push to a branch outside the configured ones is rejected with one
    info-level log entry and nothing else: the committer is not even
    looked up. *)
Theorem push_outside_branches_is_rejected (c : Checker) (w : World) :
  event_type (data c) = PushPagureEvent__name__ ->
  opt_str_in (git_ref (data c))
    (get_branches (dist_git_branches (job_config c)) "main" true) = false ->
  exists msg,
    pre_check c w
    = (Ok false,
       {| log := (log w ++ [(INFO, msg)])%list;
          issue_reports := issue_reports w |}).
Proof.
  intros Hev Hbr. enter_push Hev Hbr.
  unfold bind, logger, ret. cbn. eexists. reflexivity.
Qed.

(** X2: a push to a configured branch whose event has no "committer" entry
    makes the check raise [KeyError], with nothing logged or reported. *)
Theorem push_without_committer_raises (c : Checker) (w : World) :
  event_type (data c) = PushPagureEvent__name__ ->
  opt_str_in (git_ref (data c))
    (get_branches (dist_git_branches (job_config c)) "main" true) = true ->
  dict_get (event_dict (data c)) "committer" = None ->
  pre_check c w = (Raise (KeyError "committer"), w).
Proof.
  intros Hev Hbr Hcom. enter_push Hev Hbr.
  unfold bind at 1. unfold getitem. rewrite Hcom. reflexivity.
Qed.

(** X3: a push to a configured branch by a committer other than "pagure" is
    accepted exactly when the committer is a string that is among the
    allowed committers; the pull request plays no part. *)
Theorem direct_push_accepted_iff (c : Checker) (w : World)
    (committer : value) :
  event_type (data c) = PushPagureEvent__name__ ->
  opt_str_in (git_ref (data c))
    (get_branches (dist_git_branches (job_config c)) "main" true) = true ->
  dict_get (event_dict (data c)) "committer" = Some committer ->
  value_eq_str committer "pagure" = false ->
  fst (pre_check c w) = Ok true
  <-> exists s,
        committer = VStr s /\ In s (allowed_committers (job_config c)).
Proof.
  intros Hev Hbr Hcom Hnp. enter_push Hev Hbr.
  unfold bind at 1. unfold getitem. rewrite Hcom. cbn [ret].
  rewrite Hnp. unfold bind, logger, ret. cbn [fst snd].
  rewrite <- value_in_strs_iff.
  destruct (value_in_strs committer (allowed_committers (job_config c)));
    cbn; split; intros; try reflexivity; discriminate.
Qed.

(** X4: the only report the check ever sends to the issue repository is the
    one for a retrigger comment by someone who is not a packager: every
    other run, whatever its outcome, leaves the reports as they were. *)
Theorem permission_reports_only_comment_rejections
    (c : Checker) (w : World) :
  exists added,
    issue_reports (snd (pre_check c w)) = (issue_reports w ++ added)%list
    /\ (added = []
        \/ (length added = 1
            /\ event_type (data c) = PullRequestCommentPagureEvent__name__
            /\ is_packager c (actor (data c)) = false
            /\ fst (pre_check c w) = Ok false)).
Proof.
  assert (Hnone : forall r : result bool * World,
            issue_reports (snd r) = issue_reports w ->
            exists added,
              issue_reports (snd r) = (issue_reports w ++ added)%list
              /\ (added = []
                  \/ (length added = 1
                      /\ event_type (data c)
                         = PullRequestCommentPagureEvent__name__
                      /\ is_packager c (actor (data c)) = false
                      /\ fst r = Ok false))).
  { intros r E. exists []. rewrite app_nil_r. split; [exact E | now left]. }
  unfold pre_check.
  destruct (str_in (event_type (data c)) [PushPagureEvent__name__]).
  - apply Hnone.
    destruct (negb (opt_str_in _ _)); [reflexivity|].
    unfold bind at 1. unfold getitem.
    destruct (dict_get _ "committer") as [v|]; [|reflexivity].
    cbn [ret].
    destruct (value_eq_str v "pagure").
    + unfold contains_specfile_change.
      destruct (pull_request c) as [pr|]; [|reflexivity].
      unfold bind, logger, ret. cbn [fst snd].
      destruct (negb (existsb _ _)); cbn; [reflexivity|].
      destruct (negb (opt_str_in _ _)); reflexivity.
    + unfold bind, logger, ret. cbn [fst snd].
      destruct (negb (value_in_strs _ _)); reflexivity.
  - destruct (str_in (event_type (data c))
                [PullRequestCommentPagureEvent__name__]) eqn:Hev;
      [|apply Hnone; reflexivity].
    apply str_in_singleton in Hev.
    unfold bind, logger, report_in_issue_repository, ret. cbn [fst snd].
    destruct (is_packager c (actor (data c))) eqn:Hp; cbn [negb].
    + apply Hnone. reflexivity.
    + eexists [_]. split; [reflexivity|]. right. repeat split; assumption.
Qed.

(** X5: a retrigger comment on a pull request is accepted exactly when the
    commenter is a packager; when it is not, one report is sent, under
    the fixed koji-build title, whose message is the text of the comment
    to an existing issue followed by [MSG_GET_IN_TOUCH]. *)
Theorem comment_retrigger_needs_packager (c : Checker) (w : World) :
  event_type (data c) = PullRequestCommentPagureEvent__name__ ->
  fst (pre_check c w) = Ok (is_packager c (actor (data c)))
  /\ (is_packager c (actor (data c)) = true ->
      issue_reports (snd (pre_check c w)) = issue_reports w)
  /\ (is_packager c (actor (data c)) = false ->
      exists r,
        issue_reports (snd (pre_check c w)) = (issue_reports w ++ [r])%list
        /\ title r
           = "Re-triggering downstream koji build through comment in dist-git PR failed"
        /\ message r = comment_to_existing r ++ MSG_GET_IN_TOUCH
        /\ issue_repository_of r = issue_repository (job_config c)).
Proof.
  intros Hev. unfold pre_check. rewrite Hev.
  cbn [str_in existsb].
  change (String.eqb PullRequestCommentPagureEvent__name__
            PushPagureEvent__name__) with false.
  change (String.eqb PullRequestCommentPagureEvent__name__
            PullRequestCommentPagureEvent__name__) with true.
  cbn [orb]. unfold bind, logger, report_in_issue_repository, ret.
  cbn [fst snd].
  destruct (is_packager c (actor (data c))); cbn [negb fst snd issue_reports].
  - split; [reflexivity|]. split; [reflexivity | discriminate].
  - split; [reflexivity|]. split; [discriminate|]. intros _.
    eexists. repeat split.
Qed.


(** X6: the specfile-change check never raises and never reports; it is
    true exactly when there is no pull request (a direct push) or the
    diff of the pull request has a path ending in ".spec". *)
Theorem contains_specfile_change_iff (c : Checker) (w : World) :
  issue_reports (snd (contains_specfile_change c w)) = issue_reports w
  /\ (exists b, fst (contains_specfile_change c w) = Ok b)
  /\ (fst (contains_specfile_change c w) = Ok true
      <-> pull_request c = None
          \/ exists pr d path,
               pull_request c = Some pr
               /\ get_pr_files_diff c (id pr) 5 5 = Some d
               /\ In path (dict_keys d) /\ ends_with path ".spec").
Proof.
  unfold contains_specfile_change.
  destruct (pull_request c) as [pr|].
  - unfold bind, logger, ret. cbn [fst snd].
    pose proof (has_spec_iff (get_pr_files_diff c (id pr) 5 5)) as Hs.
    destruct (existsb _ _); cbn.
    + split; [reflexivity|]. split; [eauto|].
      split; [intros _|reflexivity]. right.
      destruct (proj1 Hs eq_refl) as [d [path H]].
      exists pr, d, path. tauto.
    + split; [reflexivity|]. split; [eauto|].
      split; [discriminate|].
      intros [E | [pr' [d [path [E H]]]]]; [discriminate|].
      injection E as <-.
      assert (false = true) by (apply Hs; eauto). discriminate.
  - cbn. split; [reflexivity|]. split; [eauto|]. split; [now left|reflexivity].
Qed.

End PermissionOnDistgitPaths.

(** ** ValidInformationForPullFromUpstream: validity and the report *)

Section ValidInformationReport.
Import Py Distgit Distgit.ValidInformationForPullFromUpstream.
Context `{RT : Runtime}.

Ltac run_pre_check :=
  unfold pre_check, bind, logger, report_in_issue_repository, ret;
  cbn [valid msg_to_report issue_title fst snd log issue_reports
       truthy_str str_of_opt negb].

Ltac split_conditions c :=
  destruct (negb (truthy_str (upstream_project_url (package_config c))));
  destruct (negb (truthy (dict_get_value (event_dict (data c)) "repo_name")
                  && truthy (dict_get_value (event_dict (data c))
                               "repo_namespace")));
  destruct (str_in (event_type (data c)) [NewHotnessUpdateEvent__name__]
            && negb (truthy_str (tag_name (data c)))).

(** X7: the run never raises; it is valid exactly when no condition fails,
    and it sends a report exactly when it is invalid: one report, to the
    configured issue repository, whose comment for an existing issue is
    the message itself. *)
Theorem invalid_iff_reported (c : Checker) (w : World) :
  fst (pre_check c w)
  = Ok (match failing_messages c with [] => true | _ :: _ => false end)
  /\ exists added,
       issue_reports (snd (pre_check c w)) = (issue_reports w ++ added)%list
       /\ length added
          = match failing_messages c with [] => 0 | _ :: _ => 1 end
       /\ Forall (fun r => comment_to_existing r = message r
                           /\ issue_repository_of r
                              = issue_repository (job_config c)) added.
Proof.
  unfold failing_messages, conditions.
  run_pre_check. split_conditions c;
  destruct (str_in (event_type (data c))
              [PullRequestCommentPagureEvent__name__]);
  destruct (is_packager c (actor (data c)));
  cbn;
  (split; [reflexivity|]);
  first [ eexists [_]; split; [reflexivity|]; split; [reflexivity|];
          repeat constructor
        | exists []; split; [now rewrite app_nil_r|];
          split; [reflexivity | constructor] ].
Qed.

(** X8: unless the run is a retrigger comment by someone who is not a
    packager, the title of its report is "Pull from upstream could not
    be run for update " followed by the event's "version" entry as
    Python prints it ("None" when the entry is missing). *)
Theorem report_title_names_the_version (c : Checker) (w : World) :
  event_type (data c) <> PullRequestCommentPagureEvent__name__
  \/ is_packager c (actor (data c)) = true ->
  exists added,
    issue_reports (snd (pre_check c w)) = (issue_reports w ++ added)%list
    /\ Forall (fun r =>
                 title r
                 = "Pull from upstream could not be run for update "
                   ++ py_str (dict_get_value (event_dict (data c)) "version")
                 /\ (dict_get (event_dict (data c)) "version" = None ->
                     title r
                     = "Pull from upstream could not be run for update None"))
         added.
Proof.
  intros H.
  assert (Hv : dict_get (event_dict (data c)) "version" = None ->
               py_str (dict_get_value (event_dict (data c)) "version")
               = "None").
  { intros E. unfold dict_get_value. now rewrite E. }
  assert (Hcase : str_in (event_type (data c))
                    [PullRequestCommentPagureEvent__name__]
                  && negb (is_packager c (actor (data c))) = false).
  { destruct H as [Hne | Hp].
    - destruct (str_in _ _) eqn:E; [|reflexivity].
      apply str_in_singleton in E. contradiction.
    - rewrite Hp. apply andb_false_r. }
  run_pre_check. split_conditions c;
  destruct (str_in (event_type (data c))
              [PullRequestCommentPagureEvent__name__]);
  destruct (is_packager c (actor (data c)));
  try discriminate Hcase;
  cbn;
  first [ eexists [_]; split; [reflexivity|];
          constructor; [|constructor]; split; [reflexivity|];
          intros E; cbn; now rewrite (Hv E)
        | exists []; split; [now rewrite app_nil_r | constructor] ].
Qed.

End ValidInformationReport.

Section ValidInformationReportExamples.
Import Py Distgit Distgit.ValidInformationForPullFromUpstream.

Lemma report_title_names_the_version_witness :
  exists added,
    issue_reports
      (snd (@pre_check Sample.runtime Sample.update_without_url
              Sample.empty_world))
    = (issue_reports Sample.empty_world ++ added)%list
    /\ Forall (fun r =>
                 title r
                 = "Pull from upstream could not be run for update "
                   ++ @py_str Sample.runtime
                        (dict_get_value
                           (event_dict (data Sample.update_without_url))
                           "version")
                 /\ (dict_get (event_dict (data Sample.update_without_url))
                       "version" = None ->
                     title r
                     = "Pull from upstream could not be run for update None"))
         added.
Proof.
  apply (@report_title_names_the_version Sample.runtime
           Sample.update_without_url Sample.empty_world).
  left. discriminate.
Defined.

End ValidInformationReportExamples.

(** ** IsUpstreamTagMatchingConfig: the decision *)

Section TagFilterDecision.
Import Py Distgit Distgit.IsUpstreamTagMatchingConfig.
Context `{RT : Runtime}.

(** X9: for an event with a tag the filter never reports, and what it
    does is decided by the two patterns: it accepts exactly when both
    let the tag through; it raises, and then only [re.error], exactly
    when the include pattern breaks on the tag, or lets it through and
    the exclude pattern breaks; otherwise it rejects.  An accepted tag
    and a raised error leave the state as it was, a rejected tag leaves
    a single info-level log entry. *)
Theorem tag_filter_decides (c : Checker) (w : World) (t : string) :
  tag_name (data c) = Some t -> t <> EmptyString ->
  let include := upstream_tag_include (job_config c) in
  let exclude := upstream_tag_exclude (job_config c) in
  let r := pre_check c w in
  issue_reports (snd r) = issue_reports w
  /\ (fst r = Ok true <-> include_passes include t /\ exclude_passes exclude t)
  /\ (fst r = Raise ReError
      <-> pattern_breaks include t
          \/ (include_passes include t /\ pattern_breaks exclude t))
  /\ (fst r = Ok true \/ fst r = Ok false \/ fst r = Raise ReError)
  /\ (fst r = Ok true \/ fst r = Raise ReError -> snd r = w)
  /\ (fst r = Ok false ->
      exists msg, log (snd r) = (log w ++ [(INFO, msg)])%list).
Proof.
  intros Ht Hne. cbv zeta.
  unfold pre_check, include_passes, exclude_passes, pattern_breaks.
  rewrite Ht, (truthy_nonempty t Hne). cbn [negb].
  unfold re_match_call, bind, logger, ret, raise.
  destruct (upstream_tag_include (job_config c)) as [p|];
    destruct (upstream_tag_exclude (job_config c)) as [q|];
    cbn [truthy_str truthy str_of_opt];
    repeat match goal with
           | |- context [negb (String.eqb ?x EmptyString)] =>
               destruct (negb (String.eqb x EmptyString))
           | |- context [re_match ?x t] =>
               destruct (re_match x t) as [[|]|]
           end;
    cbn; destruct w; cbn;
    repeat split; intros;
    repeat match goal with
           | H : _ /\ _ |- _ => destruct H
           | H : _ \/ _ |- _ => destruct H
           end;
    try discriminate; try reflexivity; try tauto; eauto.
Qed.

End TagFilterDecision.

Section TagFilterDecisionExamples.
Import Py Distgit Distgit.IsUpstreamTagMatchingConfig.

Lemma tag_filter_decides_witness :
  (let c := Sample.tagged_update (Some "release-1") in
   fst (@pre_check Sample.runtime c Sample.empty_world) = Ok false
   /\ exists msg,
        log (snd (@pre_check Sample.runtime c Sample.empty_world))
        = (log Sample.empty_world ++ [(INFO, msg)])%list)
  /\ fst (@pre_check Sample.runtime Sample.update_with_broken_include
            Sample.empty_world) = Raise ReError
  /\ fst (@pre_check Sample.runtime (Sample.tagged_update (Some "v1.2"))
            Sample.empty_world) = Ok true.
Proof.
  cbv zeta. split; [|split].
  - destruct (@tag_filter_decides Sample.runtime
                (Sample.tagged_update (Some "release-1")) Sample.empty_world
                "release-1" eq_refl) as [_ [_ [_ [_ [_ H6]]]]].
    + discriminate.
    + split; [reflexivity | apply H6; reflexivity].
  - apply (@tag_filter_decides Sample.runtime
             Sample.update_with_broken_include Sample.empty_world
             "v0.9" eq_refl); [discriminate|].
    left. split; reflexivity.
  - apply (@tag_filter_decides Sample.runtime
             (Sample.tagged_update (Some "v1.2")) Sample.empty_world
             "v1.2" eq_refl); [discriminate|].
    split; right; reflexivity.
Defined.

End TagFilterDecisionExamples.

(** ** HasIssueCommenterRetriggeringPermissions *)

Section IssueCommenterFacts.
Import Py Distgit Distgit.HasIssueCommenterRetriggeringPermissions.
Context `{IM : Imports}.

(** X10: a retrigger comment in an issue is accepted exactly when its author
    has write access to the project, and events of other kinds are
    accepted; a refusal sends one report, under the title of the issue
    the comment was made in, and an acceptance sends none. *)
Theorem issue_comment_needs_write_access (a : ActorChecker) (w : World) :
  fst (_pre_check a w) = Ok (negb (refused a))
  /\ exists added,
       issue_reports (snd (_pre_check a w))
       = (issue_reports w ++ added)%list
       /\ length added = (if refused a then 1 else 0)
       /\ Forall (fun r =>
                    title r
                    = title_of_issue (get_issue (project a) (issue_id a))
                    /\ message r = comment_to_existing r ++ MSG_GET_IN_TOUCH)
            added.
Proof.
  unfold refused, _pre_check, bind, logger, report_in_issue_repository, ret.
  destruct (str_in _ _); cbn [andb negb fst snd].
  - destruct (has_write_access (project a) (self_actor a)); cbn.
    + split; [reflexivity|]. exists []. rewrite app_nil_r.
      repeat split. constructor.
    + split; [reflexivity|]. eexists [_]. repeat split.
      repeat constructor.
  - split; [reflexivity|]. exists []. rewrite app_nil_r.
    repeat split. constructor.
Qed.

End IssueCommenterFacts.

Section PermissionOnDistgitPathsExamples.
Import Py Distgit Distgit.PermissionOnDistgit.

Lemma push_outside_branches_is_rejected_witness :
  exists msg,
    @pre_check Sample.runtime Sample.imports Sample.off_branch_push
      Sample.empty_world
    = (Ok false,
       {| log := (log Sample.empty_world ++ [(INFO, msg)])%list;
          issue_reports := issue_reports Sample.empty_world |}).
Proof.
  apply (@push_outside_branches_is_rejected Sample.runtime Sample.imports
           Sample.off_branch_push Sample.empty_world); reflexivity.
Defined.

Lemma push_without_committer_raises_witness :
  @pre_check Sample.runtime Sample.imports Sample.push_without_committer
    Sample.empty_world
  = (Raise (KeyError "committer"), Sample.empty_world).
Proof.
  apply (@push_without_committer_raises Sample.runtime Sample.imports
           Sample.push_without_committer Sample.empty_world); reflexivity.
Defined.

Lemma direct_push_accepted_iff_witness :
  fst (@pre_check Sample.runtime Sample.imports Sample.allowed_push
         Sample.empty_world) = Ok true.
Proof.
  apply (@direct_push_accepted_iff Sample.runtime Sample.imports
           Sample.allowed_push Sample.empty_world (VStr "alice"));
    try reflexivity.
  exists "alice". split; [reflexivity | simpl; left; reflexivity].
Defined.

Lemma comment_retrigger_needs_packager_witness :
  fst (@pre_check Sample.runtime Sample.imports Sample.comment_by_stranger
         Sample.empty_world) = Ok false.
Proof.
  apply (@comment_retrigger_needs_packager Sample.runtime Sample.imports
           Sample.comment_by_stranger Sample.empty_world).
  reflexivity.
Defined.


Lemma contains_specfile_change_iff_witness :
  fst (contains_specfile_change
         (Sample.merged_push "alice" Sample.spec_diff) Sample.empty_world)
  = Ok true.
Proof.
  apply (proj2 (proj2 (contains_specfile_change_iff
                         (Sample.merged_push "alice" Sample.spec_diff)
                         Sample.empty_world))).
  right. eexists _, _, "ogr.spec". split; [reflexivity|].
  split; [reflexivity|]. split.
  - simpl. right. left. reflexivity.
  - exists "ogr". reflexivity.
Defined.

End PermissionOnDistgitPathsExamples.

(** ** Target resolution: get_compose_arch and _payload *)

Section TargetResolution.
Import Py TestingFarm.
Context `{RT : Runtime}.

Lemma startswith_nil (s : string) : startswith s EmptyString = true.
Proof. destruct s; reflexivity. Qed.

Lemma str_contains_sep_cons (sep c : ascii) (s : string) :
  str_contains (String c s) (String sep EmptyString)
  = Ascii.eqb sep c || str_contains s (String sep EmptyString).
Proof.
  cbn [str_contains startswith]. now rewrite startswith_nil, andb_true_r.
Qed.

Lemma rsplit1_None_iff (sep : ascii) (s : string) :
  rsplit1 sep s = None
  <-> str_contains s (String sep EmptyString) = false.
Proof.
  induction s as [|c s IH].
  - split; reflexivity.
  - rewrite str_contains_sep_cons. cbn [rsplit1].
    rewrite (Ascii.eqb_sym sep c).
    destruct (rsplit1 sep s) as [[a b]|].
    + split; [discriminate|]. intros E.
      apply orb_false_iff in E. destruct E as [_ E].
      apply IH in E. discriminate.
    + destruct (Ascii.eqb c sep); cbn.
      * split; discriminate.
      * split; [intros _; now apply IH | reflexivity].
Qed.

(** Splitting at the last separator: the parts put back around the
    separator give the string, and the second part has no separator. *)
Lemma rsplit1_Some (sep : ascii) (s a b : string) :
  rsplit1 sep s = Some (a, b) ->
  s = a ++ String sep b
  /\ str_contains b (String sep EmptyString) = false.
Proof.
  revert a. induction s as [|c s IH]; intros a E; [discriminate|].
  cbn [rsplit1] in E.
  destruct (rsplit1 sep s) as [[a' b']|] eqn:Es.
  - injection E as <- <-. destruct (IH a' eq_refl) as [-> Hb].
    split; [reflexivity | exact Hb].
  - destruct (Ascii.eqb c sep) eqn:Ec; [|discriminate].
    injection E as <- <-. apply Ascii.eqb_eq in Ec. subst c.
    split; [reflexivity | now apply rsplit1_None_iff].
Qed.

(** X11: whenever a target is resolved, it is the compose's untitled name,
    a "-" and the architecture; the architecture has no "-" and the
    compose is the title-cased rest: the answer of the catalog changes
    neither. *)
Theorem get_compose_arch_splits_target
    (h : TestingFarmJobHelper) (chroot compose arch : string)
    (w w' : World) :
  get_compose_arch h chroot w = (Ok (compose, arch), w') ->
  exists base,
    chroot = base ++ "-" ++ arch
    /\ compose = title base
    /\ str_contains arch "-" = false.
Proof.
  unfold get_compose_arch.
  destruct (rsplit1 "-" chroot) as [[base arch0]|] eqn:Es; [|discriminate].
  intros E. apply rsplit1_Some in Es. destruct Es as [-> Hno].
  unfold bind in E.
  destruct (send_testing_farm_request _ _ _ _ _ w) as [[resp|e] w0];
    [|discriminate].
  match type of E with
  | (let (_, _) := ?m in _) = _ => destruct m as [[u|e] w1]
  end; [|discriminate].
  cbn in E. injection E as <- <- _.
  exists base. repeat split. exact Hno.
Qed.

(** X12: a target without any "-" cannot be resolved: [ValueError], before
    anything is sent or logged. *)
Theorem get_compose_arch_needs_separator
    (h : TestingFarmJobHelper) (chroot : string) (w : World) :
  str_contains chroot "-" = false ->
  get_compose_arch h chroot w = (Raise ValueError, w).
Proof.
  intros E. apply rsplit1_None_iff in E.
  unfold get_compose_arch. now rewrite E.
Qed.

Lemma map_M_names (items names : list value) (w : World) :
  Forall2 (fun item name =>
             exists dd, item = VDict dd /\ dict_get dd "name" = Some name)
    items names ->
  map_M (fun c => subscript (W := World) c "name") items w = (Ok names, w).
Proof.
  induction 1 as [|item name items names [dd [-> Hn]] _ IH];
    [reflexivity|].
  cbn [map_M subscript]. unfold bind, getitem. rewrite Hn. cbn [ret].
  now rewrite IH.
Qed.

(** X13: a catalog that lacks the compose of the target does not stop the
    resolution: with a well-formed catalog answer the target resolves
    to the same pair either way, after one request, and the only trace
    of the mismatch is an error-level log entry. *)
Theorem catalog_mismatch_is_only_logged
    (h : TestingFarmJobHelper) (chroot base arch : string) (w : World)
    (raw : RawResponse) (d : dict) (items names : list value) :
  rsplit1 "-" chroot = Some (base, arch) ->
  session_request h (length (http_log w)) (composes_request h)
  = Response raw ->
  raw_status_code raw = 200%Z ->
  raw_json raw = Some (VDict d) ->
  dict_get d "composes" = Some (VList items) ->
  Forall2 (fun item name =>
             exists dd, item = VDict dd /\ dict_get dd "name" = Some name)
    items names ->
  exists w',
    get_compose_arch h chroot w = (Ok (title base, arch), w')
    /\ quiet w w'
    /\ http_log w' = (http_log w ++ [composes_request h])%list
    /\ exists msg,
         log w'
         = (log w
            ++ if existsb (fun c => value_eq_str c (title base)) names
               then [] else [(ERROR, msg)])%list.
Proof.
  intros Hsplit Hs Hcode Hjson Hcomp Hnames.
  unfold get_compose_arch. rewrite Hsplit.
  unfold send_testing_farm_request, try_except, get_raw_request, bind,
    session_call.
  change {| method := "GET"; url := tft_api_url h ++ "composes";
            params := None; json_data := None |} with (composes_request h).
  rewrite Hs, Hjson. cbn [ret status_code json].
  rewrite Hcode. cbn [Z.eqb Pos.eqb subscript]. unfold getitem.
  rewrite Hcomp. cbn [ret py_iter].
  rewrite (map_M_names items names _ Hnames).
  unfold quiet.
  destruct (existsb _ names); cbn.
  - eexists. split; [reflexivity|]. cbn.
    split; [tauto|]. split; [reflexivity|].
    exists EmptyString. now rewrite app_nil_r.
  - eexists. split; [reflexivity|]. cbn.
    split; [tauto|]. split; [reflexivity|].
    eexists. reflexivity.
Qed.

(** X14: a catalog answer with a status other than 200 is not looked at: the
    target resolves whatever the body is. *)
Theorem catalog_error_is_ignored
    (h : TestingFarmJobHelper) (chroot base arch : string) (w : World)
    (raw : RawResponse) :
  rsplit1 "-" chroot = Some (base, arch) ->
  session_request h (length (http_log w)) (composes_request h)
  = Response raw ->
  raw_status_code raw <> 200%Z ->
  fst (get_compose_arch h chroot w) = Ok (title base, arch)
  /\ http_log (snd (get_compose_arch h chroot w))
     = (http_log w ++ [composes_request h])%list.
Proof.
  intros Hsplit Hs Hcode. apply Z.eqb_neq in Hcode.
  unfold get_compose_arch. rewrite Hsplit.
  unfold send_testing_farm_request, try_except, get_raw_request, bind,
    session_call.
  change {| method := "GET"; url := tft_api_url h ++ "composes";
            params := None; json_data := None |} with (composes_request h).
  rewrite Hs.
  destruct (raw_json raw); cbn; rewrite Hcode; cbn; split; reflexivity.
Qed.

(** X15: a catalog answer with status 200 must be a JSON object with a
    "composes" entry: without the entry the resolution raises
    [KeyError], and with a body that is not JSON it raises
    [TypeError]. *)
Theorem malformed_catalog_raises
    (h : TestingFarmJobHelper) (chroot base arch : string) (w : World)
    (raw : RawResponse) :
  rsplit1 "-" chroot = Some (base, arch) ->
  session_request h (length (http_log w)) (composes_request h)
  = Response raw ->
  raw_status_code raw = 200%Z ->
  (raw_json raw = None ->
   fst (get_compose_arch h chroot w) = Raise TypeError)
  /\ (forall d,
        raw_json raw = Some (VDict d) -> dict_get d "composes" = None ->
        fst (get_compose_arch h chroot w) = Raise (KeyError "composes")).
Proof.
  intros Hsplit Hs Hcode.
  unfold get_compose_arch. rewrite Hsplit.
  unfold send_testing_farm_request, try_except, get_raw_request, bind,
    session_call.
  change {| method := "GET"; url := tft_api_url h ++ "composes";
            params := None; json_data := None |} with (composes_request h).
  rewrite Hs. split.
  - intros ->. cbn. rewrite Hcode. reflexivity.
  - intros d -> Hd. cbn. rewrite Hcode. cbn. unfold getitem.
    rewrite Hd. reflexivity.
Qed.

End TargetResolution.

(** ** Single-target submission: what a run leaves behind *)

Section SubmissionFootprint.
Import Py TestingFarm.
Context `{RT : Runtime}.

Lemma get_compose_arch_requests (h : TestingFarmJobHelper) (chroot : string)
    (w : World) :
  http_log (snd (get_compose_arch h chroot w)) = http_log w
  \/ http_log (snd (get_compose_arch h chroot w))
     = (http_log w ++ [composes_request h])%list.
Proof.
  destruct (rsplit1 "-" chroot) as [[base arch]|] eqn:Es.
  - right.
    unfold get_compose_arch. rewrite Es.
    unfold send_testing_farm_request, try_except, get_raw_request, bind,
      session_call.
    change {| method := "GET"; url := tft_api_url h ++ "composes";
              params := None; json_data := None |} with (composes_request h).
    destruct (session_request h (length (http_log w)) (composes_request h))
      as [raw|]; cbn; [|reflexivity].
    destruct (raw_json raw) as [j|]; cbn;
      (destruct (raw_status_code raw =? 200)%Z; cbn; [|reflexivity]);
      [|reflexivity].
    destruct j; cbn; try reflexivity.
    unfold getitem. destruct (dict_get _ "composes") as [cs|]; cbn;
      [|reflexivity].
    destruct cs; cbn; try reflexivity.
    all: match goal with
         | |- context [map_M ?f ?l ?w0] =>
             pose proof (map_M_subscript_state "name" l w0) as Hs;
             destruct (map_M f l w0) as [[ys|e] w1]; cbn in Hs; subst w1;
             cbn; [|reflexivity]
         end.
    all: destruct (existsb _ ys); reflexivity.
  - left. unfold get_compose_arch. now rewrite Es.
Qed.

Lemma _payload_footprint (h : TestingFarmJobHelper) (build_id : Z)
    (chroot : string) (w : World) :
  quiet w (snd (_payload h build_id chroot w))
  /\ (forall p, fst (_payload h build_id chroot w) = Ok p ->
        http_log (snd (_payload h build_id chroot w))
        = (http_log w ++ [composes_request h])%list)
  /\ (http_log (snd (_payload h build_id chroot w)) = http_log w
      \/ http_log (snd (_payload h build_id chroot w))
         = (http_log w ++ [composes_request h])%list).
Proof.
  unfold _payload, bind.
  destruct (get_compose_arch_frame h chroot w) as [Hq Hlog].
  pose proof (get_compose_arch_requests h chroot w) as Hr.
  destruct (get_compose_arch h chroot w) as [[[compose arch]|e] w0];
    cbn in *.
  - split; [exact Hq|]. split; [intros p _; now apply (Hlog (compose, arch))|].
    exact Hr.
  - split; [exact Hq|]. split; [discriminate | exact Hr].
Qed.

(** Every run of [run_testing_farm] ends in one of five ways: the
    target is not declared; it has no build; the payload could not be
    built; the request was posted and nothing stored; the request was
    posted and a test run stored. *)
Lemma run_testing_farm_footprint (h : TestingFarmJobHelper) (build_id : Z)
    (chroot : string) (w : World) :
  let r := run_testing_farm h build_id chroot w in
  copr_builds (snd r) = copr_builds w
  /\ ((str_in chroot (tests_targets h) = false
       /\ statuses (snd r) = statuses w
       /\ http_log (snd r) = http_log w
       /\ test_runs (snd r) = test_runs w
       /\ exists t, fst r = Ok t /\ success t = false)
      \/ (str_in chroot (tests_targets h) = true
          /\ str_in chroot (build_targets h) = false
          /\ statuses (snd r)
             = (statuses w ++ [missing_build_status chroot])%list
          /\ http_log (snd r) = http_log w
          /\ test_runs (snd r) = test_runs w
          /\ exists t, fst r = Ok t /\ success t = false)
      \/ (str_in chroot (tests_targets h) = true
          /\ str_in chroot (build_targets h) = true
          /\ statuses (snd r)
             = (statuses w ++ [submitting_status chroot])%list
          /\ (http_log (snd r) = http_log w
              \/ http_log (snd r)
                 = (http_log w ++ [composes_request h])%list)
          /\ test_runs (snd r) = test_runs w
          /\ exists e, fst r = Raise e)
      \/ (str_in chroot (tests_targets h) = true
          /\ str_in chroot (build_targets h) = true
          /\ exists payload rest,
               statuses (snd r)
               = (statuses w ++ submitting_status chroot :: rest)%list
               /\ length rest <= 1
               /\ http_log (snd r)
                  = (http_log w
                     ++ [composes_request h; post_request h payload])%list
               /\ test_runs (snd r) = test_runs w
               /\ forall t, fst r = Ok t -> success t = false)
      \/ (str_in chroot (tests_targets h) = true
          /\ str_in chroot (build_targets h) = true
          /\ exists payload pid,
               statuses (snd r)
               = (statuses w
                  ++ [submitting_status chroot;
                      submitted_status h chroot pid])%list
               /\ http_log (snd r)
                  = (http_log w
                     ++ [composes_request h; post_request h payload])%list
               /\ test_runs (snd r)
                  = (test_runs w ++ [stored_run h chroot pid])%list
               /\ fst r = Ok {| success := true; details := VDict [] |})).
Proof.
  cbv zeta.
  remember (run_testing_farm h build_id chroot w) as r eqn:Er.
  unfold run_testing_farm in Er.
  destruct (str_in chroot (tests_targets h)) eqn:Ht; cbn [negb] in Er.
  2:{ subst r. split; [reflexivity|]. left. cbn. repeat split. eauto. }
  destruct (str_in chroot (build_targets h)) eqn:Hb; cbn [negb] in Er.
  2:{ subst r. split; [reflexivity|]. right. left. cbn. repeat split.
      eauto. }
  unfold bind at 1 in Er.
  unfold report_status_to_test_for_chroot at 1 in Er.
  cbv beta iota in Er. unfold bind at 1 in Er. unfold logger at 1 in Er.
  cbv beta iota in Er. unfold bind at 1 in Er.
  match type of Er with
  | context [_payload h build_id chroot ?w0] =>
      pose proof (_payload_footprint h build_id chroot w0)
        as [[_ [Hst [Htr Hcb]]] [Hok Hreq]];
      destruct (_payload h build_id chroot w0) as [[payload|e] w1]
  end; cbn in Hst, Htr, Hcb, Hok, Hreq.
  2:{ subst r. split; [exact Hcb|]. do 2 right. left. cbn.
      repeat split; try assumption. eauto. }
  specialize (Hok payload eq_refl). clear Hreq.
  fold (submitting_status chroot) in Hst.
  unfold bind at 1 in Er. unfold logger at 1 in Er. cbv beta iota in Er.
  unfold bind at 1 in Er.
  unfold send_testing_farm_request, try_except, get_raw_request in Er.
  cbn [truthy negb String.eqb Ascii.eqb Bool.eqb] in Er.
  unfold bind at 1 2 in Er. unfold session_call in Er.
  cbn [fst snd log sentry statuses http_log test_runs copr_builds] in Er.
  change {| method := "POST"; url := tft_api_url h ++ "requests";
            params := None; json_data := Some payload |}
    with (post_request h payload) in Er.
  assert (Hposted :
            copr_builds (snd r) = copr_builds w1 ->
            test_runs (snd r) = test_runs w1 ->
            http_log (snd r) = (http_log w1 ++ [post_request h payload])%list ->
            (exists rest, statuses (snd r) = (statuses w1 ++ rest)%list
                          /\ length rest <= 1) ->
            (forall t, fst r = Ok t -> success t = false) ->
            copr_builds (snd r) = copr_builds w
            /\ (False \/ False \/ False
                \/ (true = true /\ true = true
                    /\ exists payload rest,
                         statuses (snd r)
                         = (statuses w ++ submitting_status chroot :: rest)%list
                         /\ length rest <= 1
                         /\ http_log (snd r)
                            = (http_log w
                               ++ [composes_request h;
                                   post_request h payload])%list
                         /\ test_runs (snd r) = test_runs w
                         /\ forall t, fst r = Ok t -> success t = false)
                \/ False)).
  { intros E1 E2 E3 [rest [E4 E5]] E6.
    split; [congruence|]. do 3 right. left.
    split; [reflexivity|]. split; [reflexivity|].
    exists payload, rest.
    rewrite E4, E3, E2, Hst, Hok, Htr, <- !app_assoc.
    repeat split; try assumption. }
  assert (Hweaken : forall A B C D E,
            copr_builds (snd r) = copr_builds w
            /\ (False \/ False \/ False \/ (true = true /\ true = true /\ D)
                \/ False) ->
            copr_builds (snd r) = copr_builds w
            /\ (A \/ B \/ C \/ (true = true /\ true = true /\ D) \/ E)).
  { intros A B C D E [H1 H2]. split; [exact H1|]. tauto. }
  destruct (session_request h _ _) as [raw|].
  2:{ apply Hweaken, Hposted; subst r; cbn; try reflexivity.
      - exists []. rewrite app_nil_r. split; [reflexivity | cbn; lia].
      - discriminate. }
  unfold contains, subscript, getitem, bind, logger, ret, raise,
    truthy_response, report_status_to_test_for_chroot,
    TFTTestRunModel_create in Er.
  destruct (raw_json raw) as [j|];
    cbn [fst snd log sentry statuses http_log test_runs copr_builds
         status_code json negb truthy] in Er;
    destruct (raw_status_code raw =? 200)%Z; cbn [negb] in Er.
  - destruct j as [| | | | |dd];
      try (apply Hweaken, Hposted; subst r; cbn; try reflexivity;
           [exists []; rewrite app_nil_r; split; [reflexivity | cbn; lia]
           | discriminate]).
    destruct (dict_get dd "id") as [pid|].
    + subst r.
      cbn [fst snd log sentry statuses http_log test_runs copr_builds].
      split; [exact Hcb|]. do 4 right.
      split; [reflexivity|]. split; [reflexivity|].
      exists payload, pid.
      rewrite Hst, Hok, Htr, <- !app_assoc. repeat split.
    + apply Hweaken, Hposted; subst r; cbn; try reflexivity;
        [exists []; rewrite app_nil_r; split; [reflexivity | cbn; lia]
        | discriminate].
  - destruct j as [|b|z|s0|l|dd];
      cbn [truthy fst snd log sentry statuses http_log test_runs
           copr_builds] in Er;
      repeat match type of Er with
             | context [if ?b then _ else _] => destruct b
             | context [match dict_get ?d ?k with _ => _ end] =>
                 destruct (dict_get d k)
             | context [match ?l with [] => _ | _ :: _ => _ end] =>
                 destruct l
             end;
      apply Hweaken, Hposted; subst r;
      cbn [fst snd log sentry statuses http_log test_runs copr_builds];
      try reflexivity;
      try (intros t E; injection E as <-; reflexivity);
      try discriminate;
      first [ exists []; rewrite app_nil_r; split; [reflexivity | cbn; lia]
            | eexists [_]; split; [reflexivity | cbn; lia] ].
  - apply Hweaken, Hposted; subst r; cbn; try reflexivity;
      [exists []; rewrite app_nil_r; split; [reflexivity | cbn; lia]
      | discriminate].
  - apply Hweaken, Hposted; subst r;
      cbn [fst snd log sentry statuses http_log test_runs copr_builds];
      try reflexivity;
      try (intros t E; injection E as <-; reflexivity);
      eexists [_]; split; [reflexivity | cbn; lia].
Qed.

(** X16: a test run is stored exactly by the runs that return a success, and
    then it is one row for the submitted target; a run that returns a
    failure or raises stores nothing. *)
Theorem test_run_is_stored_iff_success (h : TestingFarmJobHelper)
    (build_id : Z) (chroot : string) (w : World) :
  let r := run_testing_farm h build_id chroot w in
  (exists pid,
     fst r = Ok {| success := true; details := VDict [] |}
     /\ test_runs (snd r) = (test_runs w ++ [stored_run h chroot pid])%list)
  \/ (test_runs (snd r) = test_runs w
      /\ match fst r with
         | Ok t => success t = false
         | Raise _ => True
         end).
Proof.
  cbv zeta.
  destruct (run_testing_farm_footprint h build_id chroot w)
    as [_ [H | [H | [H | [H | H]]]]].
  - right. destruct H as [_ [_ [_ [Htr [t [E Hs]]]]]].
    split; [exact Htr|]. now rewrite E.
  - right. destruct H as [_ [_ [_ [_ [Htr [t [E Hs]]]]]]].
    split; [exact Htr|]. now rewrite E.
  - right. destruct H as [_ [_ [_ [_ [Htr [e E]]]]]].
    split; [exact Htr|]. now rewrite E.
  - right. destruct H as [_ [_ [payload [rest [_ [_ [_ [Htr Hf]]]]]]]].
    split; [exact Htr|].
    destruct (fst (run_testing_farm h build_id chroot w)) as [t|e];
      [now apply Hf | exact I].
  - left. destruct H as [_ [_ [payload [pid [_ [_ [Htr E]]]]]]].
    exists pid. split; assumption.
Qed.

(** X17: a run sends nothing, or the catalog request alone, or the catalog
    request and then one POST: never a second POST, whatever the
    service answers. *)
Theorem run_sends_at_most_one_post (h : TestingFarmJobHelper)
    (build_id : Z) (chroot : string) (w : World) :
  exists reqs,
    http_log (snd (run_testing_farm h build_id chroot w))
    = (http_log w ++ reqs)%list
    /\ (reqs = []
        \/ reqs = [composes_request h]
        \/ exists payload,
             reqs = [composes_request h; post_request h payload]).
Proof.
  destruct (run_testing_farm_footprint h build_id chroot w)
    as [_ [H | [H | [H | [H | H]]]]].
  - destruct H as [_ [_ [Hl _]]]. exists []. rewrite app_nil_r. tauto.
  - destruct H as [_ [_ [_ [Hl _]]]]. exists []. rewrite app_nil_r. tauto.
  - destruct H as [_ [_ [_ [[Hl | Hl] _]]]].
    + exists []. rewrite app_nil_r. tauto.
    + exists [composes_request h]. tauto.
  - destruct H as [_ [_ [payload [rest [_ [_ [Hl _]]]]]]].
    eexists. split; [exact Hl|]. right. right. eauto.
  - destruct H as [_ [_ [payload [pid [_ [Hl _]]]]]].
    eexists. split; [exact Hl|]. right. right. eauto.
Qed.

(** X18: for a target that is declared and built, the pending status "Build
    succeeded. Submitting the tests ..." is the first thing the run
    reports, whether it then returns or raises, and at most one more
    status follows it. *)
Theorem submitting_status_comes_first (h : TestingFarmJobHelper)
    (build_id : Z) (chroot : string) (w : World) :
  str_in chroot (tests_targets h) = true ->
  str_in chroot (build_targets h) = true ->
  exists rest,
    statuses (snd (run_testing_farm h build_id chroot w))
    = (statuses w ++ submitting_status chroot :: rest)%list
    /\ length rest <= 1.
Proof.
  intros Ht Hb.
  destruct (run_testing_farm_footprint h build_id chroot w)
    as [_ [H | [H | [H | [H | H]]]]].
  - destruct H as [E _]. congruence.
  - destruct H as [_ [E _]]. congruence.
  - destruct H as [_ [_ [Hs _]]]. exists []. split; [exact Hs | cbn; lia].
  - destruct H as [_ [_ [payload [rest [Hs [Hl _]]]]]].
    exists rest. split; assumption.
  - destruct H as [_ [_ [payload [pid [Hs _]]]]].
    eexists [_]. split; [exact Hs | cbn; lia].
Qed.

(** X19: a declared target without a build: the run reports an error status
    naming the target, returns a failure that says tests cannot run
    without a build, and sends and stores nothing. *)
Theorem missing_build_is_reported (h : TestingFarmJobHelper)
    (build_id : Z) (chroot : string) (w : World) :
  str_in chroot (tests_targets h) = true ->
  str_in chroot (build_targets h) = false ->
  exists w',
    run_testing_farm h build_id chroot w
    = (Ok {| success := false;
             details :=
               VDict [("msg",
                       VStr ("Target '" ++ chroot
                             ++ "' not defined for build. "
                             ++ "Cannot run tests without build."))] |},
       w')
    /\ statuses w' = (statuses w ++ [missing_build_status chroot])%list
    /\ http_log w' = http_log w
    /\ test_runs w' = test_runs w
    /\ log w' = log w.
Proof.
  intros Ht Hb. unfold run_testing_farm. rewrite Ht, Hb. cbn [negb].
  eexists. split; [reflexivity|]. cbn. repeat split.
Qed.

End SubmissionFootprint.

(** ** Single-target submission: the answers of the service *)

Section SubmissionAnswers.
Import Py TestingFarm.
Context `{RT : Runtime}.

Lemma dict_get_None_mem (d : dict) (k : string) :
  dict_get d k = None -> dict_mem d k = false.
Proof.
  unfold dict_mem, dict_keys.
  induction d as [|[k' v'] d IH]; cbn; [reflexivity|].
  rewrite (String.eqb_sym k k').
  destruct (String.eqb k' k); [discriminate|]. exact IH.
Qed.

Ltac run_to_answer h payload Ht Hb Hp Hs :=
  unfold before_payload, bind, report_status_to_test_for_chroot, logger
    in Hp;
  cbn [fst snd log sentry statuses http_log test_runs copr_builds] in Hp;
  unfold run_testing_farm; rewrite Ht, Hb; cbn [negb];
  unfold bind at 1; unfold report_status_to_test_for_chroot at 1;
  cbv beta iota; unfold bind at 1; unfold logger at 1;
  cbv beta iota;
  cbn [fst snd log sentry statuses http_log test_runs copr_builds];
  unfold bind at 1; rewrite Hp;
  unfold bind at 1; unfold logger at 1; cbv beta iota;
  unfold bind at 1;
  unfold send_testing_farm_request, try_except, get_raw_request;
  cbn [truthy negb String.eqb Ascii.eqb Bool.eqb];
  unfold bind at 1 2; unfold session_call;
  cbn [fst snd log sentry statuses http_log test_runs copr_builds];
  change {| method := "POST"; url := tft_api_url h ++ "requests";
            params := None; json_data := Some payload |}
    with (post_request h payload);
  rewrite Hs.

(** X20: when the service cannot be reached for the POST, the run raises an
    exception that names the URL; it does not turn into a failure
    result.  The pending status reported before stays the only one and
    no test run is stored. *)
Theorem connection_failure_is_raised
    (h : TestingFarmJobHelper) (build_id : Z) (chroot : string)
    (w w1 : World) (payload : value) :
  str_in chroot (tests_targets h) = true ->
  str_in chroot (build_targets h) = true ->
  _payload h build_id chroot (before_payload chroot w) = (Ok payload, w1) ->
  session_request h (length (http_log w1)) (post_request h payload)
  = ConnectionFailed ->
  exists w',
    run_testing_farm h build_id chroot w
    = (Raise (Exception ("Cannot connect to url: `"
                         ++ (tft_api_url h ++ "requests") ++ "`.")), w')
    /\ statuses w' = (statuses w ++ [submitting_status chroot])%list
    /\ test_runs w' = test_runs w
    /\ http_log w'
       = (http_log w ++ [composes_request h; post_request h payload])%list.
Proof.
  intros Ht Hb Hp Hs.
  destruct (_payload_frame _ _ _ _ _ _ Hp) as [[_ [Hst [Htr _]]] Hlog].
  cbn in Hst, Htr, Hlog.
  run_to_answer h payload Ht Hb Hp Hs.
  unfold bind, logger, raise. cbn.
  eexists. split; [reflexivity|]. cbn.
  rewrite Hlog, Hst, Htr, <- !app_assoc. repeat split.
Qed.

(** X21: a rejection without a usable message (a body that is not JSON, or
    a JSON object without "message") is reported with the reason phrase
    of the response: the failure status and the result both say
    "Failed to submit tests: " followed by the reason. *)
Theorem business_failure_falls_back_to_reason
    (h : TestingFarmJobHelper) (build_id : Z) (chroot : string)
    (w w1 : World) (payload : value) (raw : RawResponse) :
  str_in chroot (tests_targets h) = true ->
  str_in chroot (build_targets h) = true ->
  _payload h build_id chroot (before_payload chroot w) = (Ok payload, w1) ->
  session_request h (length (http_log w1)) (post_request h payload)
  = Response raw ->
  raw_status_code raw <> 200%Z ->
  raw_json raw = None
  \/ (exists d, raw_json raw = Some (VDict d)
                /\ dict_get d "message" = None) ->
  let msg := VStr ("Failed to submit tests: " ++ raw_reason raw) in
  exists w',
    run_testing_farm h build_id chroot w
    = (Ok {| success := false; details := VDict [("msg", msg)] |}, w')
    /\ statuses w'
       = (statuses w
          ++ [ submitting_status chroot;
               {| state := CS_failure; description := msg;
                  chroot_of := chroot; url_of := None |} ])%list
    /\ test_runs w' = test_runs w
    /\ http_log w'
       = (http_log w ++ [composes_request h; post_request h payload])%list.
Proof.
  intros Ht Hb Hp Hs Hcode Hbody. cbv zeta.
  destruct (_payload_frame _ _ _ _ _ _ Hp) as [[_ [Hst [Htr _]]] Hlog].
  cbn in Hst, Htr, Hlog.
  apply Z.eqb_neq in Hcode.
  run_to_answer h payload Ht Hb Hp Hs.
  unfold contains, subscript, getitem, bind, logger, ret, truthy_response,
    report_status_to_test_for_chroot.
  destruct Hbody as [Hj | [d [Hj Hm]]]; rewrite Hj;
    cbn [fst snd log sentry statuses http_log test_runs copr_builds
         status_code json negb truthy reason];
    rewrite Hcode; cbn [negb].
  - eexists. split; [reflexivity|]. cbn.
    rewrite Hlog, Hst, Htr, <- !app_assoc. repeat split.
  - destruct d as [|kv d].
    + eexists. split; [reflexivity|]. cbn.
      rewrite Hlog, Hst, Htr, <- !app_assoc. repeat split.
    + cbn [fst snd]. rewrite (dict_get_None_mem _ _ Hm).
      eexists. split; [reflexivity|]. cbn.
      rewrite Hlog, Hst, Htr, <- !app_assoc. repeat split.
Qed.

(** X22: an answer with status 200 that carries no pipeline id makes the run
    raise: [KeyError] for a JSON object without "id", [TypeError] for a
    body that is not JSON.  Nothing is stored, and the pending status
    reported before the request is all the reporter has seen. *)
Theorem accepted_without_id_raises
    (h : TestingFarmJobHelper) (build_id : Z) (chroot : string)
    (w w1 : World) (payload : value) (raw : RawResponse) :
  str_in chroot (tests_targets h) = true ->
  str_in chroot (build_targets h) = true ->
  _payload h build_id chroot (before_payload chroot w) = (Ok payload, w1) ->
  session_request h (length (http_log w1)) (post_request h payload)
  = Response raw ->
  raw_status_code raw = 200%Z ->
  raw_json raw = None
  \/ (exists d, raw_json raw = Some (VDict d) /\ dict_get d "id" = None) ->
  exists w',
    run_testing_farm h build_id chroot w
    = (Raise (match raw_json raw with
              | None => TypeError
              | Some _ => KeyError "id"
              end), w')
    /\ statuses w' = (statuses w ++ [submitting_status chroot])%list
    /\ test_runs w' = test_runs w.
Proof.
  intros Ht Hb Hp Hs Hcode Hbody.
  destruct (_payload_frame _ _ _ _ _ _ Hp) as [[_ [Hst [Htr _]]] Hlog].
  cbn in Hst, Htr, Hlog.
  run_to_answer h payload Ht Hb Hp Hs.
  unfold contains, subscript, getitem, bind, logger, ret, raise,
    truthy_response, report_status_to_test_for_chroot.
  destruct Hbody as [Hj | [d [Hj Hm]]]; rewrite Hj;
    cbn [fst snd log sentry statuses http_log test_runs copr_builds
         status_code json negb truthy reason];
    rewrite Hcode; cbn [Z.eqb Pos.eqb negb]; rewrite ?Hm;
    (eexists; split; [reflexivity|]); cbn; rewrite Hst, Htr; split;
    reflexivity.
Qed.

(** X23: [send_testing_farm_request] sends exactly one request, a GET when
    no method (or an empty one) is given; when the session cannot
    connect, the caller sees a plain exception naming the URL, never
    the connection error itself; and in every case the reporter and the
    database are left alone. *)
Theorem send_testing_farm_request_contract
    (h : TestingFarmJobHelper) (u : string) (m : option string)
    (ps : option dict) (data : option value) (w : World) :
  let req := {| method := if truthy_str m then str_of_opt m else "GET";
                url := u; params := ps; json_data := data |} in
  let r := send_testing_farm_request h u m ps data w in
  http_log (snd r) = (http_log w ++ [req])%list
  /\ quiet w (snd r)
  /\ match session_request h (length (http_log w)) req with
     | ConnectionFailed =>
         fst r = Raise (Exception ("Cannot connect to url: `" ++ u ++ "`."))
     | Response raw =>
         fst r
         = Ok {| status_code := raw_status_code raw;
                 ok := raw_ok raw;
                 content := raw_content raw;
                 json := match raw_json raw with
                         | Some v => v
                         | None => VNone
                         end;
                 reason := raw_reason raw |}
     end.
Proof.
  cbv zeta.
  unfold send_testing_farm_request, try_except, get_raw_request, bind,
    session_call, logger, raise, ret, quiet.
  assert (Hm : match m with
               | Some m' => if truthy (VStr m') then m' else "GET"
               | None => "GET"
               end
               = (if truthy_str m then str_of_opt m else "GET")).
  { destruct m as [m'|]; reflexivity. }
  rewrite Hm.
  destruct (session_request h _ _) as [raw|]; cbn.
  - destruct (raw_json raw); cbn; repeat split.
  - repeat split.
Qed.

(** X24: the payload of a submission names the build and the target: when it
    can be built, the target is "<base>-<arch>" and the payload carries
    the secret, the repository and the commit of the event, one
    environment with that architecture and the title-cased base as its
    compose, one artifact "<build id>:<target>" of type
    "fedora-copr-build", and the results endpoint of the service as its
    webhook. *)
Theorem payload_names_build_and_target
    (h : TestingFarmJobHelper) (build_id : Z) (chroot : string)
    (w w' : World) (payload : value) :
  _payload h build_id chroot w = (Ok payload, w') ->
  exists base arch,
    chroot = base ++ "-" ++ arch
    /\ payload
       = VDict
           [ ("api_key", VStr (testing_farm_secret h));
             ("test",
              VDict [ ("fmf", VDict [ ("url", VStr (project_url h));
                                      ("ref", VStr (commit_sha h)) ]) ]);
             ("environments",
              VList
                [ VDict
                    [ ("arch", VStr arch);
                      ("os", VDict [ ("compose", VStr (title base)) ]);
                      ("artifacts",
                       VList
                         [ VDict
                             [ ("id",
                                VStr (str_of_Z build_id ++ ":" ++ chroot));
                               ("type", VStr "fedora-copr-build") ] ]) ] ]);
             ("notification",
              VDict
                [ ("webhook",
                   VDict [ ("url",
                            VStr (api_url h ++ "/testing-farm/results")) ]) ])
           ].
Proof.
  unfold _payload, bind. intros E.
  destruct (get_compose_arch h chroot w) as [[[compose arch]|e] w0] eqn:Eg;
    [|discriminate].
  destruct (get_compose_arch_splits_target _ _ _ _ _ _ Eg)
    as [base [Hc [-> _]]].
  cbn in E. injection E as <- _.
  exists base, arch. split; [exact Hc | reflexivity].
Qed.

(** X25: the API URL the helper works with always ends in "/": it is the
    configured URL, with a "/" added when that is needed. *)
Theorem tft_api_url_ends_with_slash (h : TestingFarmJobHelper) :
  ends_with (tft_api_url h) "/"
  /\ (tft_api_url h = testing_farm_api_url h
      \/ (tft_api_url h = testing_farm_api_url h ++ "/"
          /\ endswith (testing_farm_api_url h) "/" = false)).
Proof.
  unfold tft_api_url.
  destruct (endswith (testing_farm_api_url h) "/") eqn:E; cbn [negb].
  - split; [now apply endswith_iff | now left].
  - split; [eexists; reflexivity|]. right. split; reflexivity.
Qed.

End SubmissionAnswers.

(** ** The fan-out over the test targets *)

Section FanOut.
Import Py TestingFarm.
Context `{RT : Runtime}.

Lemma bind_Ok {W A B} (m : M W A) (f : A -> M W B) (w w' : W) (a : A) :
  m w = (Ok a, w') -> bind m f w = f a w'.
Proof. intros E. unfold bind. now rewrite E. Qed.

Lemma bind_Raise {W A B} (m : M W A) (f : A -> M W B) (w w' : W) (e : exn) :
  m w = (Raise e, w') -> bind m f w = (Raise e, w').
Proof. intros E. unfold bind. now rewrite E. Qed.

Lemma truthy_dict_set (d : dict) (k : string) (v : value) :
  truthy (VDict (dict_set d k v)) = true.
Proof.
  destruct d as [|[k' v'] d]; cbn; [reflexivity|].
  destruct (String.eqb k' k); reflexivity.
Qed.

Lemma for_each_submitted (h : TestingFarmJobHelper) (build_id : Z)
    (targets : list string) (w w' : World) (rs : list TaskResults) :
  submitted h build_id targets w rs w' ->
  forall failed : dict,
  exists failed',
    for_each targets failed
      (fun failed chroot =>
         result <- run_testing_farm h build_id chroot ;;
         if negb (success result)
         then ret (dict_set failed chroot (details result))
         else ret failed) w
    = (Ok failed', w')
    /\ truthy (VDict failed')
       = truthy (VDict failed) || negb (forallb success rs).
Proof.
  induction 1 as [w|chroot targets w w1 w2 r rs Hrun _ IH]; intros failed.
  - exists failed. split; [reflexivity|]. cbn [forallb negb].
    now rewrite orb_false_r.
  - cbn [for_each forallb]. unfold bind at 1. unfold bind at 1.
    rewrite Hrun. destruct (success r); cbn [negb ret andb].
    + apply IH.
    + destruct (IH (dict_set failed chroot (details r)))
        as [failed' [E T]].
      exists failed'. split; [exact E|].
      rewrite T, truthy_dict_set. cbn. now rewrite orb_true_r.
Qed.

Lemma for_each_raises (h : TestingFarmJobHelper) (build_id : Z)
    (pre : list string) (w w1 : World) (rs : list TaskResults) :
  submitted h build_id pre w rs w1 ->
  forall (chroot : string) (post : list string) (e : exn) (w2 : World)
         (failed : dict),
    run_testing_farm h build_id chroot w1 = (Raise e, w2) ->
    for_each (pre ++ chroot :: post) failed
      (fun failed chroot =>
         result <- run_testing_farm h build_id chroot ;;
         if negb (success result)
         then ret (dict_set failed chroot (details result))
         else ret failed) w
    = (Raise e, w2).
Proof.
  induction 1 as [w|c targets w w1 w2' r rs Hrun _ IH];
    intros chroot post e w2 failed Hraise.
  - cbn [app for_each]. unfold bind at 1. unfold bind at 1.
    now rewrite Hraise.
  - cbn [app for_each]. unfold bind at 1. unfold bind at 1.
    rewrite Hrun. destruct (negb (success r)); cbn [ret];
      now apply IH.
Qed.

(** X26: before any submission: without a Copr build of the job's owner and
    project the fan-out returns a failure that names them, and with a
    latest build whose id is not an integer it raises [ValueError]; in
    both cases nothing has been sent, reported or stored. *)
Theorem fan_out_needs_a_build (h : TestingFarmJobHelper) (w : World) :
  (fst (get_all_by_owner_and_project (job_owner h) (job_project h) w)
   = Ok [] ->
   run_testing_farm_on_all h w
   = (Ok {| success := false;
            details :=
              VDict [("msg",
                      VStr ("No copr builds for " ++ job_owner h ++ "/"
                            ++ job_project h))] |}, w))
  /\ (forall latest builds,
        fst (get_all_by_owner_and_project (job_owner h) (job_project h) w)
        = Ok (latest :: builds) ->
        py_int (build_id latest) = None ->
        run_testing_farm_on_all h w = (Raise ValueError, w)).
Proof.
  split.
  - intros E. unfold get_all_by_owner_and_project in E. cbn [fst] in E.
    injection E as E.
    unfold run_testing_farm_on_all, get_all_by_owner_and_project.
    unfold bind at 1. cbv beta iota. now rewrite E.
  - intros latest builds E Hint.
    unfold get_all_by_owner_and_project in E. cbn [fst] in E.
    injection E as E.
    unfold run_testing_farm_on_all, get_all_by_owner_and_project.
    unfold bind at 1. cbv beta iota. now rewrite E, Hint.
Qed.

(** X27: the fan-out submits the test targets in order, every one with the
    id of the latest build, each from the state the one before left;
    when all submissions return, it returns in the state the last one
    left, and it is a success exactly when every submission was one,
    with empty details then. *)
Theorem fan_out_succeeds_iff_all_succeed
    (h : TestingFarmJobHelper) (w w' : World)
    (latest : CoprBuildModel) (builds : list CoprBuildModel)
    (build_id0 : Z) (rs : list TaskResults) :
  fst (get_all_by_owner_and_project (job_owner h) (job_project h) w)
  = Ok (latest :: builds) ->
  py_int (build_id latest) = Some build_id0 ->
  submitted h build_id0 (tests_targets h) w rs w' ->
  exists r,
    run_testing_farm_on_all h w = (Ok r, w')
    /\ success r = forallb success rs
    /\ (success r = true -> details r = VDict []).
Proof.
  unfold get_all_by_owner_and_project. cbn [fst].
  intros E Hint Hsub. injection E as E.
  unfold run_testing_farm_on_all, get_all_by_owner_and_project.
  unfold bind at 1. cbv beta iota. rewrite E, Hint.
  destruct (for_each_submitted _ _ _ _ _ _ Hsub []) as [failed [Ef T]].
  rewrite (bind_Ok _ _ _ _ _ Ef). change (truthy (VDict [])) with false in T. cbn [orb] in T. rewrite T.
  destruct (forallb success rs); cbn [negb ret].
  - eexists. split; [reflexivity|]. split; reflexivity.
  - eexists. split; [reflexivity|]. split; [reflexivity | discriminate].
Qed.

(** X28: an exception in one submission ends the fan-out: it is raised to the
    caller from the state that submission left, and the targets after
    it are not submitted. *)
Theorem fan_out_stops_at_first_exception
    (h : TestingFarmJobHelper) (w w1 w2 : World)
    (latest : CoprBuildModel) (builds : list CoprBuildModel)
    (build_id0 : Z) (pre post : list string) (chroot : string)
    (rs : list TaskResults) (e : exn) :
  fst (get_all_by_owner_and_project (job_owner h) (job_project h) w)
  = Ok (latest :: builds) ->
  py_int (build_id latest) = Some build_id0 ->
  tests_targets h = (pre ++ chroot :: post)%list ->
  submitted h build_id0 pre w rs w1 ->
  run_testing_farm h build_id0 chroot w1 = (Raise e, w2) ->
  run_testing_farm_on_all h w = (Raise e, w2).
Proof.
  unfold get_all_by_owner_and_project. cbn [fst].
  intros E Hint Htargets Hsub Hraise. injection E as E.
  unfold run_testing_farm_on_all, get_all_by_owner_and_project.
  unfold bind at 1. cbv beta iota. rewrite E, Hint, Htargets.
  apply bind_Raise.
  apply (for_each_raises _ _ _ _ _ _ Hsub chroot post e w2 [] Hraise).
Qed.

End FanOut.

Section TargetResolutionExamples.
Import Py TestingFarm.

Lemma get_compose_arch_splits_target_witness :
  exists base,
    "fedora-33-x86_64" = base ++ "-" ++ "x86_64"
    /\ "Fedora-33" = title base
    /\ str_contains "x86_64" "-" = false.
Proof.
  eapply (@get_compose_arch_splits_target Sample.runtime
            (Sample.helper [] [] Sample.accepted_response)
            "fedora-33-x86_64" "Fedora-33" "x86_64" Sample.farm_world).
  vm_compute. reflexivity.
Defined.

Lemma get_compose_arch_needs_separator_witness :
  @get_compose_arch Sample.runtime
    (Sample.helper [] [] Sample.accepted_response) "rawhide"
    Sample.farm_world
  = (Raise ValueError, Sample.farm_world).
Proof.
  apply (@get_compose_arch_needs_separator Sample.runtime
           (Sample.helper [] [] Sample.accepted_response) "rawhide"
           Sample.farm_world).
  reflexivity.
Defined.

Lemma catalog_mismatch_is_only_logged_witness :
  let h := Sample.helper_with
             (Sample.session_down_for_post Sample.rawhide_only_catalog)
             [] [] in
  exists w',
    @get_compose_arch Sample.runtime h "fedora-33-x86_64" Sample.farm_world
    = (Ok ("Fedora-33", "x86_64"), w')
    /\ quiet Sample.farm_world w'
    /\ http_log w'
       = (http_log Sample.farm_world ++ [composes_request h])%list
    /\ exists msg,
         log w' = (log Sample.farm_world ++ [(ERROR, msg)])%list.
Proof.
  cbv zeta.
  apply (@catalog_mismatch_is_only_logged Sample.runtime
           (Sample.helper_with
              (Sample.session_down_for_post Sample.rawhide_only_catalog)
              [] [])
           "fedora-33-x86_64" "fedora-33" "x86_64" Sample.farm_world
           Sample.rawhide_only_catalog
           [("composes", VList [VDict [("name", VStr "Fedora-Rawhide")]])]
           [VDict [("name", VStr "Fedora-Rawhide")]]
           [VStr "Fedora-Rawhide"]); try reflexivity.
  constructor; [|constructor]. eexists. split; reflexivity.
Defined.

Lemma catalog_error_is_ignored_witness :
  let h := Sample.helper_with
             (Sample.session_down_for_post Sample.plain_error_response)
             [] [] in
  fst (@get_compose_arch Sample.runtime h "fedora-33-x86_64"
         Sample.farm_world)
  = Ok ("Fedora-33", "x86_64")
  /\ http_log (snd (@get_compose_arch Sample.runtime h "fedora-33-x86_64"
                      Sample.farm_world))
     = (http_log Sample.farm_world ++ [composes_request h])%list.
Proof.
  cbv zeta.
  apply (@catalog_error_is_ignored Sample.runtime
           (Sample.helper_with
              (Sample.session_down_for_post Sample.plain_error_response)
              [] [])
           "fedora-33-x86_64" "fedora-33" "x86_64" Sample.farm_world
           Sample.plain_error_response); try reflexivity.
  vm_compute. discriminate.
Defined.

Lemma malformed_catalog_raises_witness :
  fst (@get_compose_arch Sample.runtime
         (Sample.helper_with
            (Sample.session_down_for_post Sample.catalog_without_composes)
            [] [])
         "fedora-33-x86_64" Sample.farm_world)
  = Raise (KeyError "composes").
Proof.
  apply (proj2 (@malformed_catalog_raises Sample.runtime
                  (Sample.helper_with
                     (Sample.session_down_for_post
                        Sample.catalog_without_composes) [] [])
                  "fedora-33-x86_64" "fedora-33" "x86_64" Sample.farm_world
                  Sample.catalog_without_composes
                  eq_refl eq_refl eq_refl) []); reflexivity.
Defined.

End TargetResolutionExamples.

Section SubmissionExamples.
Import Py TestingFarm.

Lemma submitting_status_comes_first_witness :
  exists rest,
    statuses
      (snd (@run_testing_farm Sample.runtime
              (Sample.helper ["fedora-33-x86_64"] ["fedora-33-x86_64"]
                 Sample.bad_env_response)
              1044215 "fedora-33-x86_64" Sample.farm_world))
    = (statuses Sample.farm_world
       ++ submitting_status "fedora-33-x86_64" :: rest)%list
    /\ length rest <= 1.
Proof.
  apply (@submitting_status_comes_first Sample.runtime
           (Sample.helper ["fedora-33-x86_64"] ["fedora-33-x86_64"]
              Sample.bad_env_response)
           1044215 "fedora-33-x86_64" Sample.farm_world); reflexivity.
Defined.

Lemma missing_build_is_reported_witness :
  exists w',
    @run_testing_farm Sample.runtime
      (Sample.helper ["fedora-rawhide-x86_64"] [] Sample.accepted_response)
      1044215 "fedora-rawhide-x86_64" Sample.farm_world
    = (Ok {| success := false;
             details :=
               VDict [("msg",
                       VStr ("Target '" ++ "fedora-rawhide-x86_64"
                             ++ "' not defined for build. "
                             ++ "Cannot run tests without build."))] |},
       w')
    /\ statuses w'
       = (statuses Sample.farm_world
          ++ [missing_build_status "fedora-rawhide-x86_64"])%list
    /\ http_log w' = http_log Sample.farm_world
    /\ test_runs w' = test_runs Sample.farm_world
    /\ log w' = log Sample.farm_world.
Proof.
  apply (@missing_build_is_reported Sample.runtime
           (Sample.helper ["fedora-rawhide-x86_64"] []
              Sample.accepted_response)
           1044215 "fedora-rawhide-x86_64" Sample.farm_world); reflexivity.
Defined.

Lemma connection_failure_is_raised_witness :
  let h := Sample.helper_with
             (Sample.session_down_for_post Sample.composes_response)
             ["fedora-33-x86_64"] ["fedora-33-x86_64"] in
  exists payload w',
    @run_testing_farm Sample.runtime h 1044215 "fedora-33-x86_64"
      Sample.farm_world
    = (Raise (Exception ("Cannot connect to url: `"
                         ++ (tft_api_url h ++ "requests") ++ "`.")), w')
    /\ statuses w'
       = (statuses Sample.farm_world
          ++ [submitting_status "fedora-33-x86_64"])%list
    /\ test_runs w' = test_runs Sample.farm_world
    /\ http_log w'
       = (http_log Sample.farm_world
          ++ [composes_request h; post_request h payload])%list.
Proof.
  cbv zeta. eexists.
  eapply (@connection_failure_is_raised Sample.runtime
            (Sample.helper_with
               (Sample.session_down_for_post Sample.composes_response)
               ["fedora-33-x86_64"] ["fedora-33-x86_64"])
            1044215 "fedora-33-x86_64" Sample.farm_world).
  - reflexivity.
  - reflexivity.
  - vm_compute. reflexivity.
  - reflexivity.
Defined.

Lemma business_failure_falls_back_to_reason_witness :
  let h := Sample.helper ["fedora-33-x86_64"] ["fedora-33-x86_64"]
             Sample.plain_error_response in
  exists w',
    fst (@run_testing_farm Sample.runtime h 1044215 "fedora-33-x86_64"
           Sample.farm_world)
    = Ok {| success := false;
            details :=
              VDict [("msg",
                      VStr "Failed to submit tests: Internal Server Error")]
         |}
    /\ snd (@run_testing_farm Sample.runtime h 1044215 "fedora-33-x86_64"
              Sample.farm_world) = w'
    /\ test_runs w' = test_runs Sample.farm_world.
Proof.
  cbv zeta.
  destruct (@business_failure_falls_back_to_reason Sample.runtime
              (Sample.helper ["fedora-33-x86_64"] ["fedora-33-x86_64"]
                 Sample.plain_error_response)
              1044215 "fedora-33-x86_64" Sample.farm_world
              (snd (@_payload Sample.runtime
                      (Sample.helper ["fedora-33-x86_64"]
                         ["fedora-33-x86_64"] Sample.plain_error_response)
                      1044215 "fedora-33-x86_64"
                      (before_payload "fedora-33-x86_64" Sample.farm_world)))
              (match
                  fst (@_payload Sample.runtime
                         (Sample.helper ["fedora-33-x86_64"]
                            ["fedora-33-x86_64"] Sample.plain_error_response)
                         1044215 "fedora-33-x86_64"
                         (before_payload "fedora-33-x86_64"
                            Sample.farm_world))
                with Ok p => p | Raise _ => VNone end)
              Sample.plain_error_response)
    as [w' [E [_ [Htr _]]]].
  - reflexivity.
  - reflexivity.
  - vm_compute. reflexivity.
  - reflexivity.
  - vm_compute. discriminate.
  - left. reflexivity.
  - exists w'. rewrite E. repeat split. exact Htr.
Defined.

Lemma accepted_without_id_raises_witness :
  let h := Sample.helper ["fedora-33-x86_64"] ["fedora-33-x86_64"]
             Sample.accepted_without_id in
  exists w',
    @run_testing_farm Sample.runtime h 1044215 "fedora-33-x86_64"
      Sample.farm_world
    = (Raise (KeyError "id"), w')
    /\ statuses w'
       = (statuses Sample.farm_world
          ++ [submitting_status "fedora-33-x86_64"])%list
    /\ test_runs w' = test_runs Sample.farm_world.
Proof.
  cbv zeta.
  eapply (@accepted_without_id_raises Sample.runtime
            (Sample.helper ["fedora-33-x86_64"] ["fedora-33-x86_64"]
               Sample.accepted_without_id)
            1044215 "fedora-33-x86_64" Sample.farm_world _ _
            Sample.accepted_without_id).
  - reflexivity.
  - reflexivity.
  - vm_compute. reflexivity.
  - reflexivity.
  - reflexivity.
  - right. eexists. split; reflexivity.
Defined.

Lemma payload_names_build_and_target_witness :
  exists payload base arch,
    "fedora-33-x86_64" = base ++ "-" ++ arch
    /\ payload
       = VDict
           [ ("api_key", VStr "secret");
             ("test",
              VDict [ ("fmf",
                       VDict [ ("url", VStr "https://github.com/packit/ogr");
                               ("ref", VStr "0011223344") ]) ]);
             ("environments",
              VList
                [ VDict
                    [ ("arch", VStr arch);
                      ("os", VDict [ ("compose", VStr (title base)) ]);
                      ("artifacts",
                       VList
                         [ VDict
                             [ ("id",
                                VStr (str_of_Z 1044215 ++ ":"
                                      ++ "fedora-33-x86_64"));
                               ("type", VStr "fedora-copr-build") ] ]) ] ]);
             ("notification",
              VDict
                [ ("webhook",
                   VDict [ ("url",
                            VStr ("https://prod.packit.dev/api"
                                  ++ "/testing-farm/results")) ]) ])
           ].
Proof.
  eexists.
  eapply (@payload_names_build_and_target Sample.runtime
            (Sample.helper [] [] Sample.accepted_response)
            1044215 "fedora-33-x86_64" Sample.farm_world).
  vm_compute. reflexivity.
Defined.

End SubmissionExamples.

Section FanOutExamples.
Import Py TestingFarm.

Lemma fan_out_needs_a_build_witness :
  @run_testing_farm_on_all Sample.runtime
    (Sample.helper ["fedora-33-x86_64"] ["fedora-33-x86_64"]
       Sample.accepted_response) Sample.empty_farm_world
  = (Ok {| success := false;
           details :=
             VDict [("msg", VStr "No copr builds for packit/ogr-12")] |},
     Sample.empty_farm_world).
Proof.
  apply (proj1 (@fan_out_needs_a_build Sample.runtime
                  (Sample.helper ["fedora-33-x86_64"] ["fedora-33-x86_64"]
                     Sample.accepted_response) Sample.empty_farm_world)).
  reflexivity.
Defined.

(** Two targets, the first built and accepted by the service, the
    second without a build: the second submission starts from the state
    the first one left, and the fan-out is a failure. *)
Lemma fan_out_succeeds_iff_all_succeed_witness :
  let h := Sample.helper ["fedora-33-x86_64"; "fedora-rawhide-x86_64"]
             ["fedora-33-x86_64"] Sample.accepted_response in
  let ok := {| success := true; details := VDict [] |} in
  let no_build :=
    {| success := false;
       details :=
         VDict [("msg",
                 VStr ("Target 'fedora-rawhide-x86_64' not defined for "
                       ++ "build. Cannot run tests without build."))] |} in
  exists w1 w',
    @run_testing_farm Sample.runtime h 1044215 "fedora-33-x86_64"
      Sample.farm_world = (Ok ok, w1)
    /\ @run_testing_farm Sample.runtime h 1044215 "fedora-rawhide-x86_64" w1
       = (Ok no_build, w')
    /\ (exists r,
          @run_testing_farm_on_all Sample.runtime h Sample.farm_world
          = (Ok r, w')
          /\ success r = forallb success [ok; no_build]
          /\ (success r = true -> details r = VDict []))
    /\ forallb success [ok; no_build] = false
    /\ map chroot_of (statuses w')
       = ["fedora-33-x86_64"; "fedora-33-x86_64"; "fedora-rawhide-x86_64"]
    /\ map target (test_runs w') = ["fedora-33-x86_64"].
Proof.
  cbv zeta.
  eexists _, _.
  split; [vm_compute; reflexivity|].
  split; [vm_compute; reflexivity|].
  split.
  - eapply (@fan_out_succeeds_iff_all_succeed Sample.runtime
              (Sample.helper ["fedora-33-x86_64"; "fedora-rawhide-x86_64"]
                 ["fedora-33-x86_64"] Sample.accepted_response)
              Sample.farm_world _ _ _ 1044215).
    + reflexivity.
    + reflexivity.
    + eapply submitted_cons; [vm_compute; reflexivity|].
      eapply submitted_cons; [vm_compute; reflexivity|].
      apply submitted_nil.
  - split; [reflexivity|]. split; reflexivity.
Defined.

Lemma fan_out_stops_at_first_exception_witness :
  exists e w2,
    @run_testing_farm_on_all Sample.runtime
      (Sample.helper_with
         (Sample.session_down_for_post Sample.composes_response)
         ["fedora-33-x86_64"; "fedora-rawhide-x86_64"]
         ["fedora-33-x86_64"; "fedora-rawhide-x86_64"])
      Sample.farm_world
    = (Raise e, w2)
    /\ length (http_log w2) = 2.
Proof.
  eexists _, _. split.
  - eapply (@fan_out_stops_at_first_exception Sample.runtime
              (Sample.helper_with
                 (Sample.session_down_for_post Sample.composes_response)
                 ["fedora-33-x86_64"; "fedora-rawhide-x86_64"]
                 ["fedora-33-x86_64"; "fedora-rawhide-x86_64"])
              Sample.farm_world Sample.farm_world _ _ _ 1044215
              [] ["fedora-rawhide-x86_64"] "fedora-33-x86_64" []).
    + reflexivity.
    + reflexivity.
    + reflexivity.
    + apply submitted_nil.
    + vm_compute. reflexivity.
  - reflexivity.
Defined.

End FanOutExamples.
